(** * errdetails: error chains with gRPC status details, and their envelope

    A shallow embedding of the Go package [errdetails] (errors.go,
    wrappers.go, http.go, error_handler.go and the interceptors): the wrap
    chain, the detail kinds, [ToJSON] and [FromJSON], [ServeHTTP] and
    [translateError].  Go's [error] values are the inductive type [error];
    the
    methods of the layer types are functions on it; the library functions the
    package calls ([errors.Is], [errors.As], [errors.Unwrap], [status.New],
    [durationpb.New], ...) are transcribed next to the code that calls them.
    The wire codec ([anypb], [protojson]) is a parameter of the development:
    see [Codec]. *)

From Stdlib Require Import ZArith List String Ascii Bool Lia DecimalString.
Import ListNotations.

Local Open Scope string_scope.
Local Open Scope Z_scope.

(** ** Machine integers

    [codes.Code] is a [uint32], [Status.code] an [int32], [time.Duration] an
    [int64].  They are integers of [Z]; a conversion or an operation that can
    wrap spells the wrap-around out. *)

Definition uint32 (z : Z) : Z := z mod 2 ^ 32.
Definition int32 (z : Z) : Z := (z + 2 ^ 31) mod 2 ^ 32 - 2 ^ 31.
Definition int64 (z : Z) : Z := (z + 2 ^ 63) mod 2 ^ 64 - 2 ^ 63.

Definition MinInt64 : Z := - 2 ^ 63.
Definition MaxInt64 : Z := 2 ^ 63 - 1.

(** [strconv.FormatInt (z, 10)]. *)
Definition FormatInt (z : Z) : string := NilZero.string_of_int (Z.to_int z).

(** ** google.golang.org/grpc/codes *)

Module codes.

Definition Code : Type := Z.

Definition OK : Code := 0.
Definition Canceled : Code := 1.
Definition Unknown : Code := 2.
Definition InvalidArgument : Code := 3.
Definition DeadlineExceeded : Code := 4.
Definition NotFound : Code := 5.
Definition AlreadyExists : Code := 6.
Definition PermissionDenied : Code := 7.
Definition ResourceExhausted : Code := 8.
Definition FailedPrecondition : Code := 9.
Definition Aborted : Code := 10.
Definition OutOfRange : Code := 11.
Definition Unimplemented : Code := 12.
Definition Internal : Code := 13.
Definition Unavailable : Code := 14.
Definition DataLoss : Code := 15.
Definition Unauthenticated : Code := 16.

(** The closed set of status codes, in numeric order. *)
Definition all : list Code :=
  [OK; Canceled; Unknown; InvalidArgument; DeadlineExceeded; NotFound;
   AlreadyExists; PermissionDenied; ResourceExhausted; FailedPrecondition;
   Aborted; OutOfRange; Unimplemented; Internal; Unavailable; DataLoss;
   Unauthenticated].

(** [func (c Code) String() string]. *)
Definition String (c : Code) : string :=
  match c with
  | 0 => "OK"
  | 1 => "Canceled"
  | 2 => "Unknown"
  | 3 => "InvalidArgument"
  | 4 => "DeadlineExceeded"
  | 5 => "NotFound"
  | 6 => "AlreadyExists"
  | 7 => "PermissionDenied"
  | 8 => "ResourceExhausted"
  | 9 => "FailedPrecondition"
  | 10 => "Aborted"
  | 11 => "OutOfRange"
  | 12 => "Unimplemented"
  | 13 => "Internal"
  | 14 => "Unavailable"
  | 15 => "DataLoss"
  | 16 => "Unauthenticated"
  | _ => "Code(" ++ FormatInt c ++ ")"
  end.

End codes.

(** ** time and google.golang.org/protobuf/types/known/durationpb *)

Module time.

(** [type Duration int64], a count of nanoseconds. *)
Definition Duration : Type := Z.

Definition Nanosecond : Duration := 1.
Definition Second : Duration := 1000000000.
Definition Minute : Duration := 60 * Second.

End time.

Module durationpb.

Record Duration : Type := { Seconds : Z; Nanos : Z }.

(** [func New(d time.Duration) *Duration]; Go's [/] truncates toward
    zero. *)
Definition New (d : time.Duration) : Duration :=
  let nanos := d in
  let secs := Z.quot nanos 1000000000 in
  let nanos := nanos - secs * 1000000000 in
  {| Seconds := int64 secs; Nanos := int32 nanos |}.

(** [func (x *Duration) AsDuration() time.Duration]; the getters of a nil
    receiver return zero. *)
Definition AsDuration (x : option Duration) : time.Duration :=
  let secs := match x with Some v => Seconds v | None => 0 end in
  let nanos := match x with Some v => Nanos v | None => 0 end in
  let d := int64 (secs * time.Second) in
  let overflow := negb (Z.quot d time.Second =? secs) in
  let d := int64 (d + int64 (nanos * time.Nanosecond)) in
  let overflow := overflow || ((secs <? 0) && (nanos <? 0) && (0 <? d)) in
  let overflow := overflow || ((0 <? secs) && (0 <? nanos) && (d <? 0)) in
  if overflow then
    if secs <? 0 then MinInt64
    else if 0 <? secs then MaxInt64
    else d
  else d.

End durationpb.

(** ** google.golang.org/genproto/googleapis/rpc/errdetails

    The ten detail messages, as records of their fields.  A Go
    [map[string]string] is a list of key and value pairs. *)

Module detailspb.

Record BadRequest_FieldViolation : Type :=
  { fv_Field : string; fv_Description : string }.
Record BadRequest : Type :=
  { FieldViolations : list BadRequest_FieldViolation }.

Record DebugInfo : Type :=
  { StackEntries : list string; Detail : string }.

Record ErrorInfo : Type :=
  { Reason : string; Domain : string; Metadata : list (string * string) }.

Record Help_Link : Type :=
  { hl_Description : string; hl_Url : string }.
Record Help : Type := { Links : list Help_Link }.

Record LocalizedMessage : Type := { Locale : string; Message : string }.

Record PreconditionFailure_Violation : Type :=
  { pv_Type : string; pv_Subject : string; pv_Description : string }.
Record PreconditionFailure : Type :=
  { pf_Violations : list PreconditionFailure_Violation }.

Record QuotaFailure_Violation : Type :=
  { qv_Subject : string; qv_Description : string }.
Record QuotaFailure : Type :=
  { qf_Violations : list QuotaFailure_Violation }.

Record RequestInfo : Type := { RequestId : string; ServingData : string }.

Record ResourceInfo : Type :=
  { ResourceType : string; ResourceName : string;
    Owner : string; ri_Description : string }.

Record RetryInfo : Type := { RetryDelay : option durationpb.Duration }.

End detailspb.

(** ** google.golang.org/protobuf/reflect/protoreflect

    A [protoreflect.ProtoMessage] value: one of the ten detail messages, or a
    message of any other type linked into the program, kept by its full name
    and its content. *)

Inductive ProtoMessage : Type :=
| PBBadRequest (msg : detailspb.BadRequest)
| PBDebugInfo (msg : detailspb.DebugInfo)
| PBErrorInfo (msg : detailspb.ErrorInfo)
| PBHelp (msg : detailspb.Help)
| PBLocalizedMessage (msg : detailspb.LocalizedMessage)
| PBPreconditionFailure (msg : detailspb.PreconditionFailure)
| PBQuotaFailure (msg : detailspb.QuotaFailure)
| PBRequestInfo (msg : detailspb.RequestInfo)
| PBResourceInfo (msg : detailspb.ResourceInfo)
| PBRetryInfo (msg : detailspb.RetryInfo)
| PBOther (FullName : string) (content : string).

(** ** package details: the item interfaces

    A value of one of the interfaces of package [details] holds either the
    native protobuf fragment or some other implementation, which the model
    keeps by what its getters return. *)

Module details.

Inductive impl (T : Type) : Type :=
| Native (p : T)
| Other (getters : T).
Arguments Native {T} p.
Arguments Other {T} getters.

Definition get {T : Type} (v : impl T) : T :=
  match v with Native p => p | Other g => g end.

Definition FieldViolation : Type := impl detailspb.BadRequest_FieldViolation.
Definition HelpLink : Type := impl detailspb.Help_Link.
Definition PreconditionViolation : Type :=
  impl detailspb.PreconditionFailure_Violation.
Definition QuotaViolation : Type := impl detailspb.QuotaFailure_Violation.
Definition RequestInfo : Type := impl detailspb.RequestInfo.
Definition Info : Type := impl detailspb.ErrorInfo.
Definition ResourceInfo : Type := impl detailspb.ResourceInfo.
Definition DebugInfo : Type := impl detailspb.DebugInfo.
Definition LocalizedMessage : Type := impl detailspb.LocalizedMessage.

End details.

(** ** The wrap chain (errors.go, http.go)

    One constructor per error type that can sit in a chain: the two types of
    the Go library the package builds on ([errors.New] makes an
    [*errors.errorString], [fmt.Errorf] with [%w] a [*fmt.wrapError]) and the
    struct types of the package, each with its embedded [error] first and its
    second field after it.  A chain is never nil. *)

Inductive error : Type :=
| errorString (s : string)
| wrapError (msg : string) (err : error)
| errCodeError (err : error) (Code : codes.Code)
| errRequestInfo (err : error) (RequestInfo : detailspb.RequestInfo)
| errHelpLink (err : error) (Help : detailspb.Help)
| errBadRequest (err : error) (BadRequest : detailspb.BadRequest)
| errDebugInfo (err : error) (DebugInfo : detailspb.DebugInfo)
| errInfo (err : error) (ErrorInfo : detailspb.ErrorInfo)
| localizedError (err : error) (LocalizedMessage : detailspb.LocalizedMessage)
| errPreconditionFailed (err : error)
    (PreconditionFailure : detailspb.PreconditionFailure)
| errQuotaFailure (err : error) (QuotaFailure : detailspb.QuotaFailure)
| errResourceInfo (err : error) (ResourceInfo : detailspb.ResourceInfo)
| errRetryInfo (err : error) (RetryInfo : detailspb.RetryInfo)
| arbitraryError (err : error) (msg : ProtoMessage).

(** [errors.New]. *)
Definition errors_New (text : string) : error := errorString text.

(** The [Unwrap] methods, through [errors.Unwrap]: the embedded error of a
    layer, nothing for a type without the method. *)
Definition errors_Unwrap (e : error) : option error :=
  match e with
  | errorString _ => None
  | wrapError _ err
  | errCodeError err _
  | errRequestInfo err _
  | errHelpLink err _
  | errBadRequest err _
  | errDebugInfo err _
  | errInfo err _
  | localizedError err _
  | errPreconditionFailed err _
  | errQuotaFailure err _
  | errResourceInfo err _
  | errRetryInfo err _
  | arbitraryError err _ => Some err
  end.

(** The layers a loop [for { ...; err = errors.Unwrap(err); if err == nil
    { break } }] visits, outermost first. *)
Fixpoint layers (e : error) : list error :=
  e :: match e with
       | errorString _ => []
       | wrapError _ err
       | errCodeError err _
       | errRequestInfo err _
       | errHelpLink err _
       | errBadRequest err _
       | errDebugInfo err _
       | errInfo err _
       | localizedError err _
       | errPreconditionFailed err _
       | errQuotaFailure err _
       | errResourceInfo err _
       | errRetryInfo err _
       | arbitraryError err _ => layers err
       end.

(** The [Error] methods.  [errCodeError] defines its own; every other struct
    of the package gets the method of its embedded error. *)
Fixpoint Error (e : error) : string :=
  match e with
  | errorString s => s
  | wrapError msg _ => msg
  | errCodeError err c => codes.String c ++ ": " ++ Error err
  | errRequestInfo err _
  | errHelpLink err _
  | errBadRequest err _
  | errDebugInfo err _
  | errInfo err _
  | localizedError err _
  | errPreconditionFailed err _
  | errQuotaFailure err _
  | errResourceInfo err _
  | errRetryInfo err _
  | arbitraryError err _ => Error err
  end.

(** The type assertion [err.(protoreflect.ProtoMessage)]: the layers that
    embed a message have its [ProtoReflect] method. *)
Definition asProtoMessage (e : error) : option ProtoMessage :=
  match e with
  | errorString _ | wrapError _ _ | errCodeError _ _ => None
  | errRequestInfo _ m => Some (PBRequestInfo m)
  | errHelpLink _ m => Some (PBHelp m)
  | errBadRequest _ m => Some (PBBadRequest m)
  | errDebugInfo _ m => Some (PBDebugInfo m)
  | errInfo _ m => Some (PBErrorInfo m)
  | localizedError _ m => Some (PBLocalizedMessage m)
  | errPreconditionFailed _ m => Some (PBPreconditionFailure m)
  | errQuotaFailure _ m => Some (PBQuotaFailure m)
  | errResourceInfo _ m => Some (PBResourceInfo m)
  | errRetryInfo _ m => Some (PBRetryInfo m)
  | arbitraryError _ m => Some m
  end.

(** ** google.golang.org/genproto/googleapis/rpc/status and
    google.golang.org/grpc/status

    The envelope is the message [statuspb.Status]: a code, a message and the
    details as [Any] values, whose representation belongs to the codec. *)

Module statuspb.

Record Status (Any : Type) : Type :=
  { Code : Z; Message : string; Details : list Any }.
Arguments Code {Any} s.
Arguments Message {Any} s.
Arguments Details {Any} s.

End statuspb.

Module status.

(** [*status.Status] holds a [statuspb.Status]. *)
Definition Status (Any : Type) : Type := statuspb.Status Any.

(** [func New(c codes.Code, msg string) *Status]. *)
Definition New {Any : Type} (c : codes.Code) (msg : string) : Status Any :=
  {| statuspb.Code := int32 c;
     statuspb.Message := msg;
     statuspb.Details := [] |}.

(** [func (s *Status) Proto() *spb.Status]. *)
Definition Proto {Any : Type} (s : Status Any) : statuspb.Status Any := s.

End status.

(** [statusError]: an error with a [GRPCStatus] method.  Only
    [*errCodeError] has one. *)
Definition GRPCStatus {Any : Type} (e : error) : option (status.Status Any) :=
  match e with
  | errCodeError _ Code => Some (status.New Code (Error e))
  | _ => None
  end.

Definition asStatusError (e : error) : option error :=
  match e with
  | errCodeError _ _ => Some e
  | _ => None
  end.

(** [status.Convert]: the status an error describes itself with, and
    [codes.Unknown] with the text of the error for any other error. *)
Definition status_Convert {Any : Type} (err : error) : status.Status Any :=
  match GRPCStatus err with
  | Some s => s
  | None => status.New codes.Unknown (Error err)
  end.

(** ** errors.As and errors.Is

    [errors.As (err, &target)] for a target of interface type: the first
    layer, outermost first, that the type assertion [assert] accepts.  No type
    of the chain has an [As] method. *)
Definition firstSome {A B : Type} (f : A -> option B) (l : list A) : option B :=
  fold_right (fun a r => match f a with Some b => Some b | None => r end)
             None l.

Definition errors_As {T : Type} (assert : error -> option T) (err : error)
  : option T :=
  firstSome assert (layers err).

Section Identity.

(** Go's [==] on two interface values that hold pointers is true exactly
    when they hold the same pointer.  The embedding keeps values and not
    addresses, so the two comparisons the package runs are parameters:
    what is proved holds whichever pointers are shared. *)
Variable sameError : error -> error -> bool.
Variable sameMessage : ProtoMessage -> ProtoMessage -> bool.

(** The [Is] methods of [errCodeError] and of [arbitraryError]; [None] for a
    type without the method. *)
Definition Is (e target : error) : option bool :=
  match e with
  | errCodeError _ Code =>
      Some match target with
           | errCodeError _ vCode => vCode =? Code
           | _ => false
           end
  | arbitraryError _ m =>
      Some match asProtoMessage target with
           | Some v => sameMessage v m
           | None => false
           end
  | _ => None
  end.

(** One turn of the loop of [errors.Is]. *)
Definition matches (target err : error) : bool :=
  sameError err target
  || match Is err target with Some b => b | None => false end.

Definition errors_Is (err target : error) : bool :=
  existsb (matches target) (layers err).

End Identity.

(** ** The error interfaces with methods of their own (errors.go)

    Each module is one interface of the package together with the one struct
    that implements it: [t] is the receiver (the two fields of the struct),
    [layer] the receiver as an [error], [assert] the type assertion to the
    interface.  A mutator of the Go code updates its receiver in place and
    returns it; here it returns the receiver after the update. *)

Module HelpfulError.

Record t : Type := { err : error; Help : detailspb.Help }.

Definition layer (h : t) : error := errHelpLink (err h) (Help h).

Definition assert (e : error) : option t :=
  match e with
  | errHelpLink err m => Some {| err := err; Help := m |}
  | _ => None
  end.

Definition GetUrl (link : details.HelpLink) : string :=
  detailspb.hl_Url (details.get link).
Definition GetDescription (link : details.HelpLink) : string :=
  detailspb.hl_Description (details.get link).

(** [func (h *errHelpLink) WithLinks(links ...details.HelpLink)]. *)
Definition WithLinks (h : t) (links : list details.HelpLink) : t :=
  let v :=
    map (fun link =>
           match link with
           | details.Native helpLink => helpLink
           | _ => {| detailspb.hl_Description := GetDescription link;
                     detailspb.hl_Url := GetUrl link |}
           end) links in
  {| err := err h;
     Help := {| detailspb.Links := detailspb.Links (Help h) ++ v |} |}.

(** [func (e *errHelpLink) GetLinks() []details.HelpLink]. *)
Definition GetLinks (e : t) : list details.HelpLink :=
  map details.Native (detailspb.Links (Help e)).

End HelpfulError.

Module BadRequestError.

Record t : Type := { err : error; BadRequest : detailspb.BadRequest }.

Definition layer (e : t) : error := errBadRequest (err e) (BadRequest e).

Definition assert (e : error) : option t :=
  match e with
  | errBadRequest err m => Some {| err := err; BadRequest := m |}
  | _ => None
  end.

Definition GetField (v : details.FieldViolation) : string :=
  detailspb.fv_Field (details.get v).
Definition GetDescription (v : details.FieldViolation) : string :=
  detailspb.fv_Description (details.get v).

(** [func (e *errBadRequest) WithViolation(violations
    ...details.FieldViolation)]. *)
Definition WithViolation (e : t) (violations : list details.FieldViolation)
  : t :=
  let v :=
    map (fun fieldViolation =>
           match fieldViolation with
           | details.Native violation => violation
           | _ => {| detailspb.fv_Field := GetField fieldViolation;
                     detailspb.fv_Description :=
                       GetDescription fieldViolation |}
           end) violations in
  {| err := err e;
     BadRequest :=
       {| detailspb.FieldViolations :=
            detailspb.FieldViolations (BadRequest e) ++ v |} |}.

(** [func (e *errBadRequest) GetViolations() []details.FieldViolation]. *)
Definition GetViolations (e : t) : list details.FieldViolation :=
  map details.Native (detailspb.FieldViolations (BadRequest e)).

End BadRequestError.

Module FailedPreconditionError.

Record t : Type :=
  { err : error; PreconditionFailure : detailspb.PreconditionFailure }.

Definition layer (e : t) : error :=
  errPreconditionFailed (err e) (PreconditionFailure e).

Definition assert (e : error) : option t :=
  match e with
  | errPreconditionFailed err m =>
      Some {| err := err; PreconditionFailure := m |}
  | _ => None
  end.

Definition GetType (v : details.PreconditionViolation) : string :=
  detailspb.pv_Type (details.get v).
Definition GetSubject (v : details.PreconditionViolation) : string :=
  detailspb.pv_Subject (details.get v).
Definition GetDescription (v : details.PreconditionViolation) : string :=
  detailspb.pv_Description (details.get v).

(** [func (e *errPreconditionFailed) WithViolation(violations
    ...details.PreconditionViolation)]. *)
Definition WithViolation (e : t)
  (violations : list details.PreconditionViolation) : t :=
  let v :=
    map (fun fieldViolation =>
           match fieldViolation with
           | details.Native violation => violation
           | _ => {| detailspb.pv_Type := GetType fieldViolation;
                     detailspb.pv_Subject := GetSubject fieldViolation;
                     detailspb.pv_Description :=
                       GetDescription fieldViolation |}
           end) violations in
  {| err := err e;
     PreconditionFailure :=
       {| detailspb.pf_Violations :=
            detailspb.pf_Violations (PreconditionFailure e) ++ v |} |}.

Definition GetViolations (e : t) : list details.PreconditionViolation :=
  map details.Native (detailspb.pf_Violations (PreconditionFailure e)).

End FailedPreconditionError.

Module FailedQuotaError.

Record t : Type := { err : error; QuotaFailure : detailspb.QuotaFailure }.

Definition layer (e : t) : error := errQuotaFailure (err e) (QuotaFailure e).

Definition assert (e : error) : option t :=
  match e with
  | errQuotaFailure err m => Some {| err := err; QuotaFailure := m |}
  | _ => None
  end.

Definition GetSubject (v : details.QuotaViolation) : string :=
  detailspb.qv_Subject (details.get v).
Definition GetDescription (v : details.QuotaViolation) : string :=
  detailspb.qv_Description (details.get v).

(** [func (e *errQuotaFailure) WithViolation(violations
    ...details.QuotaViolation)]. *)
Definition WithViolation (e : t) (violations : list details.QuotaViolation)
  : t :=
  let v :=
    map (fun fieldViolation =>
           match fieldViolation with
           | details.Native violation => violation
           | _ => {| detailspb.qv_Subject := GetSubject fieldViolation;
                     detailspb.qv_Description :=
                       GetDescription fieldViolation |}
           end) violations in
  {| err := err e;
     QuotaFailure :=
       {| detailspb.qf_Violations :=
            detailspb.qf_Violations (QuotaFailure e) ++ v |} |}.

(** [func (e *errQuotaFailure) GetViolations() []details.QuotaViolation]. *)
Definition GetViolations (e : t) : list details.QuotaViolation :=
  map details.Native (detailspb.qf_Violations (QuotaFailure e)).

End FailedQuotaError.

Module RetriableError.

Record t : Type := { err : error; RetryInfo : detailspb.RetryInfo }.

Definition layer (e : t) : error := errRetryInfo (err e) (RetryInfo e).

Definition assert (e : error) : option t :=
  match e with
  | errRetryInfo err m => Some {| err := err; RetryInfo := m |}
  | _ => None
  end.

(** [func (e *errRetryInfo) WithDelay(d time.Duration)]. *)
Definition WithDelay (e : t) (d : time.Duration) : t :=
  {| err := err e;
     RetryInfo := {| detailspb.RetryDelay := Some (durationpb.New d) |} |}.

(** [func (e *errRetryInfo) GetRetryDelay() time.Duration]. *)
Definition GetRetryDelay (e : t) : time.Duration :=
  durationpb.AsDuration (detailspb.RetryDelay (RetryInfo e)).

End RetriableError.

(** ** Detail wrappers (wrappers.go) *)

(** [type Details interface { Wrap(error) error }]: a value of the interface
    is its [Wrap] method.  [wrapperFunc] is the function itself. *)
Definition Details : Type := error -> error.

Definition wrapperFunc (fn : error -> error) : Details := fn.

Definition Wrap (wrapper : Details) (err : error) : error := wrapper err.

(** [func WithDetails(err error, details ...Details) error]. *)
Definition WithDetails (err : error) (details : list Details) : error :=
  fold_left (fun err wrapper => Wrap wrapper err) details err.

(** [func Code(code codes.Code) Details]. *)
Definition Code (code : codes.Code) : Details :=
  wrapperFunc (fun err => errCodeError err code).

(** [func WithBadRequest(err error, violations ...details.FieldViolation)]. *)
Definition WithBadRequest (err : error)
  (violations : list details.FieldViolation) : BadRequestError.t :=
  let v := [] in
  let req := {| BadRequestError.err := err;
                BadRequestError.BadRequest :=
                  {| detailspb.FieldViolations := v |} |} in
  BadRequestError.WithViolation req violations.

Definition BadRequest (violations : list details.FieldViolation) : Details :=
  wrapperFunc (fun err =>
                 BadRequestError.layer (WithBadRequest err violations)).

(** [func WithHelp(err error, links ...details.HelpLink) HelpfulError]. *)
Definition WithHelp (err : error) (links : list details.HelpLink)
  : HelpfulError.t :=
  let v := [] in
  let req := {| HelpfulError.err := err;
                HelpfulError.Help := {| detailspb.Links := v |} |} in
  HelpfulError.WithLinks req links.

Definition Help (links : list details.HelpLink) : Details :=
  wrapperFunc (fun err => HelpfulError.layer (WithHelp err links)).

(** [func WithRequestInfo(err error, info details.RequestInfo)]. *)
Definition WithRequestInfo (err : error) (info : details.RequestInfo) : error :=
  let details :=
    match info with
    | details.Native p => p
    | _ => {| detailspb.RequestId := detailspb.RequestId (details.get info);
              detailspb.ServingData :=
                detailspb.ServingData (details.get info) |}
    end in
  errRequestInfo err details.

Definition RequestInfo (info : details.RequestInfo) : Details :=
  wrapperFunc (fun err => WithRequestInfo err info).

(** [func WithDebug(err error, info details.DebugInfo) DebugError]. *)
Definition WithDebug (err : error) (info : details.DebugInfo) : error :=
  let details :=
    match info with
    | details.Native p => p
    | _ => {| detailspb.StackEntries :=
                detailspb.StackEntries (details.get info);
              detailspb.Detail := detailspb.Detail (details.get info) |}
    end in
  errDebugInfo err details.

Definition Debug (info : details.DebugInfo) : Details :=
  wrapperFunc (fun err => WithDebug err info).

(** [func WithCause(err error, info details.Info) CausedError]. *)
Definition WithCause (err : error) (info : details.Info) : error :=
  let details :=
    match info with
    | details.Native p => p
    | _ => {| detailspb.Reason := detailspb.Reason (details.get info);
              detailspb.Domain := detailspb.Domain (details.get info);
              detailspb.Metadata := detailspb.Metadata (details.get info) |}
    end in
  errInfo err details.

Definition Cause (info : details.Info) : Details :=
  wrapperFunc (fun err => WithCause err info).

(** [func WithLocalizedMessage(err error, msg details.LocalizedMessage)]. *)
Definition WithLocalizedMessage (err : error) (msg : details.LocalizedMessage)
  : error :=
  let details :=
    match msg with
    | details.Native p => p
    | _ => {| detailspb.Locale := detailspb.Locale (details.get msg);
              detailspb.Message := detailspb.Message (details.get msg) |}
    end in
  localizedError err details.

Definition LocalizedMessage (msg : details.LocalizedMessage) : Details :=
  wrapperFunc (fun err => WithLocalizedMessage err msg).

(** [func WithPreconditionFailure(err error, violations
    ...details.PreconditionViolation)]. *)
Definition WithPreconditionFailure (err : error)
  (violations : list details.PreconditionViolation)
  : FailedPreconditionError.t :=
  let details := {| detailspb.pf_Violations := [] |} in
  let wrapped := {| FailedPreconditionError.err := err;
                    FailedPreconditionError.PreconditionFailure := details |} in
  FailedPreconditionError.WithViolation wrapped violations.

Definition PreconditionFailure
  (violations : list details.PreconditionViolation) : Details :=
  wrapperFunc (fun err =>
                 FailedPreconditionError.layer
                   (WithPreconditionFailure err violations)).

(** [func WithQuotaFailure(err error, violations ...details.QuotaViolation)]. *)
Definition WithQuotaFailure (err : error)
  (violations : list details.QuotaViolation) : FailedQuotaError.t :=
  let details := {| detailspb.qf_Violations := [] |} in
  let wrapped := {| FailedQuotaError.err := err;
                    FailedQuotaError.QuotaFailure := details |} in
  FailedQuotaError.WithViolation wrapped violations.

Definition QuotaFailure (violations : list details.QuotaViolation) : Details :=
  wrapperFunc (fun err =>
                 FailedQuotaError.layer (WithQuotaFailure err violations)).

(** [func WithRetryDelay(err error, delay time.Duration) RetriableError]. *)
Definition WithRetryDelay (err : error) (delay : time.Duration)
  : RetriableError.t :=
  {| RetriableError.err := err;
     RetriableError.RetryInfo :=
       {| detailspb.RetryDelay := Some (durationpb.New delay) |} |}.

Definition RetryDelay (delay : time.Duration) : Details :=
  wrapperFunc (fun err => RetriableError.layer (WithRetryDelay err delay)).

(** [func WithResource(err error, info details.ResourceInfo)]. *)
Definition WithResource (err : error) (info : details.ResourceInfo) : error :=
  let details :=
    match info with
    | details.Native p => p
    | _ => {| detailspb.ResourceType :=
                detailspb.ResourceType (details.get info);
              detailspb.ResourceName :=
                detailspb.ResourceName (details.get info);
              detailspb.Owner := detailspb.Owner (details.get info);
              detailspb.ri_Description :=
                detailspb.ri_Description (details.get info) |}
    end in
  errResourceInfo err details.

Definition Resource (info : details.ResourceInfo) : Details :=
  wrapperFunc (fun err => WithResource err info).

(** ** Status code errors (errors.go) *)

(** [var errUnknown = errors.New("unknown error")]. *)
Definition errUnknown : error := errors_New "unknown error".

Definition ErrCanceled : error := errCodeError errUnknown codes.Canceled.
Definition ErrUnknown : error := errCodeError errUnknown codes.Unknown.
Definition ErrInvalidArgument : error :=
  errCodeError errUnknown codes.InvalidArgument.
Definition ErrDeadlineExceeded : error :=
  errCodeError errUnknown codes.DeadlineExceeded.
Definition ErrNotFound : error := errCodeError errUnknown codes.NotFound.
Definition ErrAlreadyExists : error :=
  errCodeError errUnknown codes.AlreadyExists.
Definition ErrPermissionDenied : error :=
  errCodeError errUnknown codes.PermissionDenied.
Definition ErrResourceExhausted : error :=
  errCodeError errUnknown codes.ResourceExhausted.
Definition ErrFailedPrecondition : error :=
  errCodeError errUnknown codes.FailedPrecondition.
Definition ErrAborted : error := errCodeError errUnknown codes.Aborted.
Definition ErrOutOfRange : error := errCodeError errUnknown codes.OutOfRange.
Definition ErrUnimplemented : error :=
  errCodeError errUnknown codes.Unimplemented.
Definition ErrInternal : error := errCodeError errUnknown codes.Internal.
Definition ErrUnavailable : error := errCodeError errUnknown codes.Unavailable.
Definition ErrDataLoss : error := errCodeError errUnknown codes.DataLoss.
Definition ErrUnauthenticated : error :=
  errCodeError errUnknown codes.Unauthenticated.

(** The sentinels the [var] block declares, in its order. *)
Definition sentinels : list error :=
  [ErrCanceled; ErrUnknown; ErrInvalidArgument; ErrDeadlineExceeded;
   ErrNotFound; ErrAlreadyExists; ErrPermissionDenied; ErrResourceExhausted;
   ErrFailedPrecondition; ErrAborted; ErrOutOfRange; ErrUnimplemented;
   ErrInternal; ErrUnavailable; ErrDataLoss; ErrUnauthenticated].

(** The sentinel declared for a code, if there is one. *)
Definition sentinelFor (c : codes.Code) : option error :=
  find (fun s => match s with errCodeError _ c' => c' =? c | _ => false end)
       sentinels.

(** [func New(code codes.Code, msg string, details ...Details) error]. *)
Definition New (code : codes.Code) (msg : string) (details : list Details)
  : error :=
  WithDetails (errCodeError (errors_New msg) code) details.

(** ** The wire codec

    [anypb] and [protojson] are not code of the package.  The development
    takes them as a parameter: the type of the encoded document, the type of
    an [Any], and the four functions [ToJSON] and [FromJSON] call, each of
    which can fail. *)

Inductive result (A : Type) : Type :=
| Ok (a : A)
| Err (e : error).
Arguments Ok {A} a.
Arguments Err {A} e.

Definition bind {A B : Type} (r : result A) (f : A -> result B) : result B :=
  match r with
  | Ok a => f a
  | Err e => Err e
  end.

Notation "x <- r ;; k" := (bind r (fun x => k))
  (at level 61, r at next level, right associativity).

(** [mapM]: a list of results in order, stopping at the first failure. *)
Fixpoint traverse {A B : Type} (f : A -> result B) (l : list A)
  : result (list B) :=
  match l with
  | [] => Ok []
  | a :: l' => b <- f a ;; bs <- traverse f l' ;; Ok (b :: bs)
  end.

Record Codec : Type :=
  { bytes : Type;
    Any : Type;
    anypb_New : ProtoMessage -> result Any;
    anypb_UnmarshalNew : Any -> result ProtoMessage;
    protojson_Marshal : statuspb.Status Any -> result bytes;
    protojson_Unmarshal : bytes -> result (statuspb.Status Any) }.

(** What is assumed of the codec where a round trip is concerned: what it
    encoded, it decodes to the same value. *)
Record Lossless (codec : Codec) : Prop :=
  { any_roundtrip :
      forall m a, anypb_New codec m = Ok a ->
                  anypb_UnmarshalNew codec a = Ok m;
    json_roundtrip :
      forall p b, protojson_Marshal codec p = Ok b ->
                  protojson_Unmarshal codec b = Ok p }.

(** An [io.Reader], by what reading it to the end gives. *)
Definition Reader (codec : Codec) : Type := result (bytes codec).

(** [type DetailsMapper interface { Map(protoreflect.ProtoMessage) Details }];
    [None] is the nil [Details]. *)
Definition DetailsMapper : Type := ProtoMessage -> option Details.

Definition Map (mapper : DetailsMapper) (pb : ProtoMessage) : option Details :=
  mapper pb.

(** ** ToJSON and FromJSON (http.go) *)

Section Envelope.

Variable codec : Codec.

Let Status : Type := statuspb.Status (Any codec).

(** The first statement of [ToJSON]: the layer that describes the status,
    or a new [codes.Unknown] layer around the error. *)
Definition toStatus (from : error) : error :=
  match errors_As asStatusError from with
  | Some toStatus => toStatus
  | None => errCodeError from codes.Unknown
  end.

(** The loop of [ToJSON] over the layers of [from]. *)
Fixpoint appendDetails (froms : list error) (p : Status) : result Status :=
  match froms with
  | [] => Ok p
  | from :: rest =>
      match asProtoMessage from with
      | Some msg =>
          match anypb_New codec msg with
          | Err err => Err err
          | Ok any =>
              appendDetails rest
                {| statuspb.Code := statuspb.Code p;
                   statuspb.Message := statuspb.Message p;
                   statuspb.Details := statuspb.Details p ++ [any] |}
          end
      | None => appendDetails rest p
      end
  end.

(** [func ToJSON(from error) ([]byte, error)]. *)
Definition ToJSON (from : error) : result (bytes codec) :=
  let toStatus := toStatus from in
  let p := status.Proto (status_Convert toStatus) in
  match appendDetails (layers from) p with
  | Err err => Err err
  | Ok p => protojson_Marshal codec p
  end.

(** The inner loop of [FromJSON]: every mapper that maps the message wraps
    the error. *)
Fixpoint applyMappers (mappers : list DetailsMapper) (pb : ProtoMessage)
  (sterr : error) : error :=
  match mappers with
  | [] => sterr
  | mapper :: rest =>
      match Map mapper pb with
      | Some wrapper => applyMappers rest pb (Wrap wrapper sterr)
      | None => applyMappers rest pb sterr
      end
  end.

(** The type switch of [FromJSON]. *)
Definition wrapKind (pb : ProtoMessage) (sterr : error) : error :=
  match pb with
  | PBBadRequest msg => errBadRequest sterr msg
  | PBDebugInfo msg => errDebugInfo sterr msg
  | PBErrorInfo msg => errInfo sterr msg
  | PBHelp msg => errHelpLink sterr msg
  | PBLocalizedMessage msg => localizedError sterr msg
  | PBPreconditionFailure msg => errPreconditionFailed sterr msg
  | PBQuotaFailure msg => errQuotaFailure sterr msg
  | PBRequestInfo msg => errRequestInfo sterr msg
  | PBResourceInfo msg => errResourceInfo sterr msg
  | PBRetryInfo msg => errRetryInfo sterr msg
  | PBOther _ _ =>
      WithDetails sterr
        [wrapperFunc (fun err => arbitraryError err pb)]
  end.

(** The loop of [FromJSON] over the details of the envelope. *)
Fixpoint replayDetails (details : list (Any codec))
  (mappers : list DetailsMapper) (sterr : error) : error :=
  match details with
  | [] => sterr
  | detail :: rest =>
      match anypb_UnmarshalNew codec detail with
      | Err err => err
      | Ok pb =>
          let sterr := applyMappers mappers pb sterr in
          let sterr := wrapKind pb sterr in
          replayDetails rest mappers sterr
      end
  end.

(** [func FromJSON(r io.Reader, mappers ...DetailsMapper) error]. *)
Definition FromJSON (r : Reader codec) (mappers : list DetailsMapper)
  : error :=
  match r with
  | Err err => err
  | Ok buf =>
      match protojson_Unmarshal codec buf with
      | Err err => err
      | Ok s =>
          let sterr :=
            New (uint32 (statuspb.Code s)) (statuspb.Message s) [] in
          replayDetails (statuspb.Details s) mappers sterr
      end
  end.

End Envelope.

(** A codec to run the definitions with: the document is the envelope itself
    and an [Any] the message it holds. *)
Definition plainCodec : Codec :=
  {| bytes := statuspb.Status ProtoMessage;
     Any := ProtoMessage;
     anypb_New := Ok;
     anypb_UnmarshalNew := Ok;
     protojson_Marshal := Ok;
     protojson_Unmarshal := Ok |}.

(** ** Vocabulary of the properties *)

(** The detail payloads of a chain, outermost layer first: what a caller
    meets who probes the chain for messages layer by layer. *)
Definition detailsOf (e : error) : list ProtoMessage :=
  flat_map (fun l => match asProtoMessage l with
                     | Some msg => [msg]
                     | None => []
                     end) (layers e).

(** The status code a chain resolves to: that of its outermost code layer,
    [codes.Unknown] without one. *)
Definition classify (from : error) : codes.Code :=
  match toStatus from with
  | errCodeError _ c => c
  | _ => codes.Unknown
  end.

(** A [Details] that wraps: the error it is given is what [errors.Unwrap]
    finds under the error it returns. *)
Definition wrapper (d : Details) : Prop :=
  forall e, errors_Unwrap (Wrap d e) = Some e.

(** A wrapper whose layer is a detail and carries no status code. *)
Definition detailWrapper (d : Details) : Prop :=
  forall e, errors_Unwrap (Wrap d e) = Some e
            /\ asStatusError (Wrap d e) = None.

(** The wrappers one decoded detail puts on the chain, as the specification
    words it: those of the mappers that map the payload, in the order of the
    mappers, then the one of the kind dispatch. *)
Definition mappedWrappers (mappers : list DetailsMapper) (pb : ProtoMessage)
  : list Details :=
  flat_map (fun mapper => match Map mapper pb with
                          | Some w => [w]
                          | None => []
                          end) mappers.


(** The built-in kinds of the type switch. *)
Definition builtinKind (pb : ProtoMessage) : bool :=
  match pb with
  | PBOther _ _ => false
  | _ => true
  end.

(** The chains of the two tests of http_test.go. *)
Definition handlerChain : error :=
  New codes.InvalidArgument "test error"
    [Help [details.Native {| detailspb.hl_Description := "desc4";
                             detailspb.hl_Url := "url2" |};
           details.Native {| detailspb.hl_Description := "desc3";
                             detailspb.hl_Url := "url1" |}];
     BadRequest [details.Native {| detailspb.fv_Field := "field1";
                                   detailspb.fv_Description := "desc1" |};
                 details.Native {| detailspb.fv_Field := "field2";
                                   detailspb.fv_Description := "desc2" |}]].

Definition handlerBadRequest : ProtoMessage :=
  PBBadRequest
    {| detailspb.FieldViolations :=
         [{| detailspb.fv_Field := "field1";
             detailspb.fv_Description := "desc1" |};
          {| detailspb.fv_Field := "field2";
             detailspb.fv_Description := "desc2" |}] |}.

Definition handlerHelp : ProtoMessage :=
  PBHelp
    {| detailspb.Links :=
         [{| detailspb.hl_Description := "desc4"; detailspb.hl_Url := "url2" |};
          {| detailspb.hl_Description := "desc3";
             detailspb.hl_Url := "url1" |}] |}.

Definition rateLimitViolation : detailspb.QuotaFailure_Violation :=
  {| detailspb.qv_Subject := "auth0|123456789";
     detailspb.qv_Description := "Rate limit applied for Resend Email" |}.

Definition rateLimitChain : error :=
  New codes.ResourceExhausted "resend email rate limit exceeded"
    [RetryDelay time.Minute;
     QuotaFailure [details.Native rateLimitViolation]].

(** ** The gRPC interceptors

    [translateError] returns [status.FromProto(p).Err()]: nil for the code
    [codes.OK], and otherwise a [*status.Error], which is kept here by the
    status message it holds.  Its argument can be nil: the interceptors pass
    on whatever the handler returned. *)

Section Interceptor.

Variable codec : Codec.

(** The loop of [translateError] over the layers of [err]: a payload that the
    codec does not encode is left out. *)
Fixpoint collectDetails (errs : list error) (p : statuspb.Status (Any codec))
  : statuspb.Status (Any codec) :=
  match errs with
  | [] => p
  | err :: rest =>
      match asProtoMessage err with
      | Some msg =>
          match anypb_New codec msg with
          | Ok any =>
              collectDetails rest
                {| statuspb.Code := statuspb.Code p;
                   statuspb.Message := statuspb.Message p;
                   statuspb.Details := statuspb.Details p ++ [any] |}
          | Err _ => collectDetails rest p
          end
      | None => collectDetails rest p
      end
  end.

(** [func (s *Status) Err() error] after [status.FromProto]. *)
Definition status_Err (p : statuspb.Status (Any codec))
  : option (statuspb.Status (Any codec)) :=
  if uint32 (statuspb.Code p) =? codes.OK then None else Some p.

(** [func translateError(err error) error].  For a nil [err], [errors.As]
    fails, the code layer made for it has a nil cause, which [fmt.Sprintf]
    prints as [%!s(<nil>)], and the loop stops at once. *)
Definition translateError (err : option error)
  : option (statuspb.Status (Any codec)) :=
  match err with
  | Some err =>
      let sterr := toStatus err in
      let p := status.Proto (status_Convert sterr) in
      status_Err (collectDetails (layers err) p)
  | None =>
      let p :=
        status.Proto
          (status.New codes.Unknown
             (codes.String codes.Unknown ++ ": " ++ "%!s(<nil>)")) in
      status_Err p
  end.

(** [func UnaryServerInterceptor(ctx, req, _, handler)], with the handler by
    what it returns for the request. *)
Definition UnaryServerInterceptor {Req Resp : Type}
  (req : Req) (handler : Req -> Resp * option error)
  : Resp * option (statuspb.Status (Any codec)) :=
  let (resp, err) := handler req in
  (resp, translateError err).

(** [func StreamServerInterceptor(srv, ss, info, handler)]. *)
Definition StreamServerInterceptor {Stream : Type}
  (ss : Stream) (handler : Stream -> option error)
  : option (statuspb.Status (Any codec)) :=
  translateError (handler ss).

End Interceptor.

(** ** The error handler of the package (error_handler.go) and ServeHTTP

    What [ServeHTTP] does is the list of the calls it makes, in order, on the
    [http.ResponseWriter] and on the [ErrorHandler] that is set.  The locks of
    [errorHandler] play no part in one sequential run. *)

(** [fmt.Errorf(prefix + "%w", err)]. *)
Definition fmt_Errorf (prefix : string) (err : error) : error :=
  wrapError (prefix ++ Error err) err.

(** The method [StatusCode() int] of [hasStatusCode]: no type of the chain
    has it. *)
Definition StatusCode (e : error) : option Z :=
  match e with
  | errorString _
  | wrapError _ _
  | errCodeError _ _
  | errRequestInfo _ _
  | errHelpLink _ _
  | errBadRequest _ _
  | errDebugInfo _ _
  | errInfo _ _
  | localizedError _ _
  | errPreconditionFailed _ _
  | errQuotaFailure _ _
  | errResourceInfo _ _
  | errRetryInfo _ _
  | arbitraryError _ _ => None
  end.

Definition contentType : string := "application/json".

Definition StatusInternalServerError : Z := 500.

Section Handler.

Variable codec : Codec.

(** The implementations of [ErrorHandler]. *)
Variable ErrorHandler : Type.

(** [type errorHandler struct { mu sync.RWMutex; handler ErrorHandler }]. *)
Record errorHandler : Type := { handler : option ErrorHandler }.

(** What [json.NewEncoder(w).Encode] is given to write. *)
Inductive body : Type :=
| envelopeBody (resp : bytes codec)
| statusBody (status : codes.Code) (message : string).

Inductive call : Type :=
| HeaderSet (key value : string)
| WriteHeader (statusCode : Z)
| Encode (v : body)
| Handle (h : ErrorHandler) (err : error).

(** [func (h *errorHandler) Handle(err error)]. *)
Definition errorHandler_Handle (h : errorHandler) (err : error) : list call :=
  match handler h with
  | Some x => [Handle x err]
  | None => []
  end.

(** [func SetErrorHandler(h ErrorHandler)]. *)
Definition SetErrorHandler (h : option ErrorHandler) (_ : errorHandler)
  : errorHandler :=
  {| handler := h |}.

(** [func (fn HandlerFunc) ServeHTTP(w http.ResponseWriter, r
    *http.Request)]: [fn] by the error it returns for the request, the
    writer by the error its [Write] answers an [Encode] with. *)
Definition ServeHTTP {Request : Type} (pkg : errorHandler)
  (fn : Request -> option error) (write : body -> option error)
  (r : Request) : list call :=
  match fn r with
  | None => []
  | Some verr =>
      let statusCode :=
        match errors_As StatusCode verr with
        | Some sterr => sterr
        | None => StatusInternalServerError
        end in
      HeaderSet "Content-Type" contentType
      :: match ToJSON codec verr with
         | Err err =>
             let v :=
               statusBody codes.Internal
                 "Internal Server Error: failed to encode error response" in
             errorHandler_Handle pkg
               (fmt_Errorf "failed to encode error to JSON: " err)
             ++ WriteHeader StatusInternalServerError
             :: Encode v
             :: match write v with
                | Some err =>
                    errorHandler_Handle pkg
                      (fmt_Errorf
                         "failed to write internal server error to ResponseWriter: "
                         err)
                | None => []
                end
         | Ok b =>
             let resp := envelopeBody b in
             WriteHeader statusCode
             :: Encode resp
             :: match write resp with
                | Some err =>
                    errorHandler_Handle pkg
                      (fmt_Errorf
                         "failed to write JSON encoded error to ResponseWriter: "
                         err)
                | None => []
                end
         end
  end.

End Handler.

(** ** More vocabulary *)

(** A [Details] that puts on the layer of one payload: the layer the type
    switch of [FromJSON] builds for it. *)
Definition kindWrapper (d : Details) (msg : ProtoMessage) : Prop :=
  forall e, Wrap d e = wrapKind msg e.

(** A codec that fails: it neither encodes nor decodes a message without a
    name, and it does not parse the empty document. *)
Definition pickyCodec : Codec :=
  {| bytes := option (statuspb.Status ProtoMessage);
     Any := ProtoMessage;
     anypb_New := fun m =>
       match m with
       | PBOther EmptyString _ => Err (errors_New "proto: message has no name")
       | _ => Ok m
       end;
     anypb_UnmarshalNew := fun a =>
       match a with
       | PBOther EmptyString _ => Err (errors_New "proto: not found")
       | _ => Ok a
       end;
     protojson_Marshal := fun p => Ok (Some p);
     protojson_Unmarshal := fun b =>
       match b with
       | Some p => Ok p
       | None => Err (errors_New "proto: syntax error")
       end |}.

(** * Properties *)

(** ** Integers *)

Lemma uint32_int32 (z : Z) : uint32 (int32 z) = uint32 z.
Proof.
  unfold uint32, int32.
  rewrite Zminus_mod, Zmod_mod, <- Zminus_mod.
  f_equal. lia.
Qed.

Lemma uint32_small (z : Z) : 0 <= z < 2 ^ 32 -> uint32 z = z.
Proof. intros H. unfold uint32. apply Z.mod_small. exact H. Qed.

(** ** The chain *)

Lemma layers_unwrap (e : error) :
  layers e = e :: match errors_Unwrap e with
                  | Some err => layers err
                  | None => []
                  end.
Proof. destruct e; reflexivity. Qed.

Lemma layers_wrapper (d : Details) (e : error) :
  wrapper d -> layers (Wrap d e) = Wrap d e :: layers e.
Proof. intros H. rewrite layers_unwrap, H. reflexivity. Qed.

Lemma wrapKind_unwrap (pb : ProtoMessage) (e : error) :
  errors_Unwrap (wrapKind pb e) = Some e.
Proof. destruct pb; reflexivity. Qed.

Lemma wrapKind_message (pb : ProtoMessage) (e : error) :
  asProtoMessage (wrapKind pb e) = Some pb.
Proof. destruct pb; reflexivity. Qed.

Lemma wrapKind_Error (pb : ProtoMessage) (e : error) :
  Error (wrapKind pb e) = Error e.
Proof. destruct pb; reflexivity. Qed.

Lemma wrapKind_layers (pb : ProtoMessage) (e : error) :
  layers (wrapKind pb e) = wrapKind pb e :: layers e.
Proof. rewrite layers_unwrap, wrapKind_unwrap. reflexivity. Qed.

Lemma detailsOf_wrapKind (pb : ProtoMessage) (e : error) :
  detailsOf (wrapKind pb e) = pb :: detailsOf e.
Proof.
  unfold detailsOf. rewrite wrapKind_layers. simpl.
  rewrite wrapKind_message. reflexivity.
Qed.

(** Replaying a list of payloads with the kind dispatch alone. *)
Lemma detailsOf_replay (pbs : list ProtoMessage) (base : error) :
  detailsOf (fold_left (fun e pb => wrapKind pb e) pbs base)
  = (rev pbs ++ detailsOf base)%list.
Proof.
  revert base. induction pbs as [|pb pbs IH]; intros base; simpl.
  - reflexivity.
  - rewrite IH, detailsOf_wrapKind, <- app_assoc. reflexivity.
Qed.

Lemma layers_replay (pbs : list ProtoMessage) (base : error) :
  exists outer,
    layers (fold_left (fun e pb => wrapKind pb e) pbs base)
    = (outer ++ layers base)%list.
Proof.
  revert base. induction pbs as [|pb pbs IH]; intros base; simpl.
  - exists []. reflexivity.
  - destruct (IH (wrapKind pb base)) as [outer H].
    exists (outer ++ [wrapKind pb base])%list.
    rewrite H, wrapKind_layers, <- app_assoc. reflexivity.
Qed.

Lemma Error_replay (pbs : list ProtoMessage) (base : error) :
  Error (fold_left (fun e pb => wrapKind pb e) pbs base) = Error base.
Proof.
  revert base. induction pbs as [|pb pbs IH]; intros base; simpl.
  - reflexivity.
  - rewrite IH. apply wrapKind_Error.
Qed.

(** The status layer [ToJSON] settles on is always a code layer. *)
Lemma firstSome_asStatusError (l : list error) (e : error) :
  firstSome asStatusError l = Some e -> exists err c, e = errCodeError err c.
Proof.
  induction l as [|a l IH]; simpl.
  - discriminate.
  - destruct a; simpl; try exact IH.
    intros H. injection H as <-. eauto.
Qed.

Lemma toStatus_code (from : error) :
  exists err, toStatus from = errCodeError err (classify from).
Proof.
  unfold classify, toStatus, errors_As.
  destruct (firstSome asStatusError (layers from)) as [e|] eqn:H.
  - apply firstSome_asStatusError in H. destruct H as (err & c & ->). eauto.
  - eauto.
Qed.

(** ** The envelope *)

Section EnvelopeFacts.

Variable codec : Codec.

Lemma traverse_app {A B : Type} (f : A -> result B) (l1 l2 : list A) :
  traverse f (l1 ++ l2)
  = (bs1 <- traverse f l1 ;; bs2 <- traverse f l2 ;; Ok (bs1 ++ bs2)%list).
Proof.
  induction l1 as [|a l1 IH]; simpl.
  - destruct (traverse f l2); reflexivity.
  - destruct (f a); simpl; [|reflexivity].
    rewrite IH. destruct (traverse f l1); simpl; [|reflexivity].
    destruct (traverse f l2); reflexivity.
Qed.

Lemma appendDetails_traverse (froms : list error)
  (p : statuspb.Status (Any codec)) :
  appendDetails codec froms p
  = (anys <- traverse (anypb_New codec)
               (flat_map (fun l => match asProtoMessage l with
                                   | Some msg => [msg]
                                   | None => []
                                   end) froms) ;;
     Ok {| statuspb.Code := statuspb.Code p;
           statuspb.Message := statuspb.Message p;
           statuspb.Details := statuspb.Details p ++ anys |}).
Proof.
  revert p. induction froms as [|from rest IH]; intros p; simpl.
  - rewrite app_nil_r. destruct p; reflexivity.
  - destruct (asProtoMessage from) as [msg|]; simpl.
    + destruct (anypb_New codec msg) as [any|err]; simpl; [|reflexivity].
      rewrite IH. simpl.
      destruct (traverse _ _); simpl; [|reflexivity].
      rewrite <- app_assoc. reflexivity.
    + apply IH.
Qed.

(** [ToJSON] in one equation: the details of the chain are encoded in
    order, then the envelope with the code and the text of the status
    layer.  It fails where the codec does and nowhere else. *)
Lemma ToJSON_eq (from : error) :
  ToJSON codec from
  = (anys <- traverse (anypb_New codec) (detailsOf from) ;;
     protojson_Marshal codec
       {| statuspb.Code := int32 (classify from);
          statuspb.Message := Error (toStatus from);
          statuspb.Details := anys |}).
Proof.
  unfold ToJSON. rewrite appendDetails_traverse. fold (detailsOf from).
  destruct (toStatus_code from) as [err H].
  unfold status_Convert, status.Proto. rewrite H. simpl.
  destruct (traverse _ _); reflexivity.
Qed.

Lemma replayDetails_eq (details : list (Any codec))
  (pbs : list ProtoMessage) (mappers : list DetailsMapper) (sterr : error) :
  traverse (anypb_UnmarshalNew codec) details = Ok pbs ->
  replayDetails codec details mappers sterr
  = fold_left (fun e pb => wrapKind pb (applyMappers mappers pb e)) pbs sterr.
Proof.
  revert pbs sterr.
  induction details as [|detail rest IH]; intros pbs sterr; simpl.
  - intros H. injection H as <-. reflexivity.
  - destruct (anypb_UnmarshalNew codec detail) as [pb|]; simpl;
      [|discriminate].
    destruct (traverse _ rest) as [pbs'|]; simpl; [|discriminate].
    intros H. injection H as <-. simpl. apply IH. reflexivity.
Qed.

Lemma FromJSON_eq (b : bytes codec) (s : statuspb.Status (Any codec))
  (pbs : list ProtoMessage) (mappers : list DetailsMapper) :
  protojson_Unmarshal codec b = Ok s ->
  traverse (anypb_UnmarshalNew codec) (statuspb.Details s) = Ok pbs ->
  FromJSON codec (Ok b) mappers
  = fold_left (fun e pb => wrapKind pb (applyMappers mappers pb e)) pbs
      (New (uint32 (statuspb.Code s)) (statuspb.Message s) []).
Proof.
  intros Hs Hd. unfold FromJSON. rewrite Hs.
  apply replayDetails_eq. exact Hd.
Qed.

Hypothesis lossless : Lossless codec.

Lemma traverse_roundtrip (msgs : list ProtoMessage)
  (anys : list (Any codec)) :
  traverse (anypb_New codec) msgs = Ok anys ->
  traverse (anypb_UnmarshalNew codec) anys = Ok msgs.
Proof.
  revert anys. induction msgs as [|m msgs IH]; intros anys; simpl.
  - intros H. injection H as <-. reflexivity.
  - destruct (anypb_New codec m) as [a|] eqn:Ha; simpl; [|discriminate].
    destruct (traverse _ msgs) as [anys'|]; simpl; [|discriminate].
    intros H. injection H as <-. simpl.
    rewrite (any_roundtrip codec lossless _ _ Ha). simpl.
    rewrite (IH anys' eq_refl). reflexivity.
Qed.

(** The round trip: what [FromJSON] rebuilds from what [ToJSON] wrote. *)
Lemma roundtrip (from : error) (b : bytes codec)
  (mappers : list DetailsMapper) :
  ToJSON codec from = Ok b ->
  FromJSON codec (Ok b) mappers
  = fold_left (fun e pb => wrapKind pb (applyMappers mappers pb e))
      (detailsOf from)
      (New (uint32 (classify from)) (Error (toStatus from)) []).
Proof.
  intros Hm. rewrite ToJSON_eq in Hm.
  destruct (traverse _ (detailsOf from)) as [anys|] eqn:Hd; simpl in Hm;
    [|discriminate].
  apply (json_roundtrip codec lossless) in Hm.
  rewrite (FromJSON_eq _ _ (detailsOf from) mappers Hm); simpl.
  - rewrite uint32_int32. reflexivity.
  - apply traverse_roundtrip. exact Hd.
Qed.

End EnvelopeFacts.

Lemma plainCodec_lossless : Lossless plainCodec.
Proof.
  split; simpl.
  - intros m a H. injection H as <-. reflexivity.
  - intros p b H. injection H as <-. reflexivity.
Qed.

(** ** errors.Is against a code layer *)

Lemma errors_Is_code_layer (sameError : error -> error -> bool)
  (sameMessage : ProtoMessage -> ProtoMessage -> bool)
  (e err cause : error) (c : codes.Code) :
  In (errCodeError err c) (layers e) ->
  errors_Is sameError sameMessage e (errCodeError cause c) = true.
Proof.
  intros H. unfold errors_Is. apply existsb_exists.
  exists (errCodeError err c). split; [exact H|].
  unfold matches. simpl. rewrite Z.eqb_refl. apply orb_true_r.
Qed.

Lemma layers_WithDetails (ds : list Details) (base : error) :
  Forall wrapper ds -> incl (layers base) (layers (WithDetails base ds)).
Proof.
  intros H. revert base.
  induction H as [|d ds Hd _ IH]; intros base; simpl.
  - apply incl_refl.
  - eapply incl_tran; [|apply IH].
    rewrite (layers_wrapper d base Hd). apply incl_tl, incl_refl.
Qed.

Lemma layers_head (e : error) : In e (layers e).
Proof. rewrite layers_unwrap. left. reflexivity. Qed.

(** ** The two tests of http_test.go *)

(** C2. Serializing the chain of [TestHandler] (code [InvalidArgument],
    message "test error", [Help] applied first and [BadRequest] last) gives
    the envelope with code 3, message "InvalidArgument: test error" and the
    details [BadRequest; Help] in that order, the items of each in their
    order of insertion: these two payloads are encoded, in that order, and
    then the envelope that holds them; with the plain codec the envelope is
    the value shown. *)
Theorem ToJSON_handler_chain :
  detailsOf handlerChain = [handlerBadRequest; handlerHelp]
  /\ (forall codec : Codec,
        ToJSON codec handlerChain
        = (badRequest <- anypb_New codec handlerBadRequest ;;
           help <- anypb_New codec handlerHelp ;;
           protojson_Marshal codec
             {| statuspb.Code := 3;
                statuspb.Message := "InvalidArgument: test error";
                statuspb.Details := [badRequest; help] |}))
  /\ ToJSON plainCodec handlerChain
     = Ok {| statuspb.Code := 3;
             statuspb.Message := "InvalidArgument: test error";
             statuspb.Details := [handlerBadRequest; handlerHelp] |}.
Proof.
  split; [reflexivity|]. split; [|reflexivity].
  intros codec. rewrite ToJSON_eq.
  change (detailsOf handlerChain) with [handlerBadRequest; handlerHelp].
  simpl traverse.
  destruct (anypb_New codec handlerBadRequest); [|reflexivity].
  destruct (anypb_New codec handlerHelp); reflexivity.
Qed.

(** C1. The chain of [TestFromJSON] (code [ResourceExhausted], a retry delay
    of one minute, then a quota failure), written with [ToJSON] and read back
    with [FromJSON] without mappers: the error read back satisfies
    [errors.Is] against [ErrResourceExhausted], [errors.As] finds a
    [RetriableError] in it whose [GetRetryDelay] is one minute, and a
    [FailedQuotaError] whose first violation has the subject and the
    description of the original. *)
Theorem FromJSON_rate_limit_chain (codec : Codec) (lossless : Lossless codec)
  (sameError : error -> error -> bool)
  (sameMessage : ProtoMessage -> ProtoMessage -> bool)
  (b : bytes codec) :
  ToJSON codec rateLimitChain = Ok b ->
  let err := FromJSON codec (Ok b) [] in
  errors_Is sameError sameMessage err ErrResourceExhausted = true
  /\ (exists retErr,
        errors_As RetriableError.assert err = Some retErr
        /\ RetriableError.GetRetryDelay retErr = time.Minute)
  /\ (exists qfErr violation,
        errors_As FailedQuotaError.assert err = Some qfErr
        /\ nth_error (FailedQuotaError.GetViolations qfErr) 0 = Some violation
        /\ FailedQuotaError.GetSubject violation = "auth0|123456789"
        /\ FailedQuotaError.GetDescription violation
           = "Rate limit applied for Resend Email").
Proof.
  intros H err. subst err.
  rewrite (roundtrip codec lossless _ _ [] H).
  split; [|split].
  - eapply errors_Is_code_layer. simpl. right. right. left. reflexivity.
  - eexists. split; reflexivity.
  - do 2 eexists. repeat split; reflexivity.
Qed.

Lemma FromJSON_rate_limit_chain_witness :
  let err :=
    FromJSON plainCodec
      (Ok {| statuspb.Code := 8;
             statuspb.Message :=
               "ResourceExhausted: resend email rate limit exceeded";
             statuspb.Details :=
               [PBQuotaFailure
                  {| detailspb.qf_Violations := [rateLimitViolation] |};
                PBRetryInfo
                  {| detailspb.RetryDelay :=
                       Some {| durationpb.Seconds := 60;
                               durationpb.Nanos := 0 |} |}] |}) [] in
  errors_Is (fun _ _ => false) (fun _ _ => false) err ErrResourceExhausted
  = true
  /\ (exists retErr,
        errors_As RetriableError.assert err = Some retErr
        /\ RetriableError.GetRetryDelay retErr = time.Minute)
  /\ (exists qfErr violation,
        errors_As FailedQuotaError.assert err = Some qfErr
        /\ nth_error (FailedQuotaError.GetViolations qfErr) 0 = Some violation
        /\ FailedQuotaError.GetSubject violation = "auth0|123456789"
        /\ FailedQuotaError.GetDescription violation
           = "Rate limit applied for Resend Email").
Proof.
  apply (FromJSON_rate_limit_chain plainCodec plainCodec_lossless
           (fun _ _ => false) (fun _ _ => false)).
  reflexivity.
Defined.

(** ** The order of the details over a round trip *)

Lemma roundtrip_details_rev (codec : Codec) (lossless : Lossless codec)
  (from : error) (b : bytes codec) :
  ToJSON codec from = Ok b ->
  FromJSON codec (Ok b) []
  = fold_left (fun e pb => wrapKind pb e) (detailsOf from)
      (New (uint32 (classify from)) (Error (toStatus from)) [])
  /\ detailsOf (FromJSON codec (Ok b) []) = rev (detailsOf from).
Proof.
  intros H. rewrite (roundtrip codec lossless _ _ [] H).
  cbn [applyMappers]. split; [reflexivity|].
  rewrite detailsOf_replay. apply app_nil_r.
Qed.

(** C3. A chain whose details are [D1; D2; D3] from the outermost layer
    inwards, written with [ToJSON] and read back with [FromJSON] without
    mappers: the error read back is the base layer wrapped with [D1], then
    [D2], then [D3], so that its details, outermost first, are [D3; D2; D1],
    and the first message a probe meets is [D3]. *)
Theorem roundtrip_reverses_details (codec : Codec) (lossless : Lossless codec)
  (from : error) (D1 D2 D3 : ProtoMessage) (b : bytes codec) :
  detailsOf from = [D1; D2; D3] ->
  ToJSON codec from = Ok b ->
  let err := FromJSON codec (Ok b) [] in
  detailsOf err = [D3; D2; D1]
  /\ errors_As asProtoMessage err = Some D3
  /\ exists base,
       detailsOf base = []
       /\ err = wrapKind D3 (wrapKind D2 (wrapKind D1 base)).
Proof.
  intros Hd H err. subst err.
  destruct (roundtrip_details_rev codec lossless from b H) as [Heq Hrev].
  rewrite Hd in Heq, Hrev. cbn [fold_left] in Heq. cbn [rev app] in Hrev.
  split; [exact Hrev|]. rewrite Heq. split.
  - unfold errors_As. rewrite wrapKind_layers. simpl.
    rewrite wrapKind_message. reflexivity.
  - eexists. split; [|reflexivity]. reflexivity.
Qed.

Lemma roundtrip_reverses_details_witness :
  let from :=
    WithDetails (New codes.NotFound "no such table" [])
      [RetryDelay time.Minute;
       QuotaFailure [details.Native rateLimitViolation];
       BadRequest []] in
  let D1 := PBBadRequest {| detailspb.FieldViolations := [] |} in
  let D2 :=
    PBQuotaFailure {| detailspb.qf_Violations := [rateLimitViolation] |} in
  let D3 := PBRetryInfo
              {| detailspb.RetryDelay :=
                   Some {| durationpb.Seconds := 60;
                           durationpb.Nanos := 0 |} |} in
  let err :=
    FromJSON plainCodec
      (Ok {| statuspb.Code := 5;
             statuspb.Message := "NotFound: no such table";
             statuspb.Details := [D1; D2; D3] |}) [] in
  detailsOf from = [D1; D2; D3]
  /\ detailsOf err = [D3; D2; D1]
  /\ errors_As asProtoMessage err = Some D3
  /\ exists base,
       detailsOf base = []
       /\ err = wrapKind D3 (wrapKind D2 (wrapKind D1 base)).
Proof.
  intros from D1 D2 D3 err.
  split; [reflexivity|].
  apply (roundtrip_reverses_details plainCodec plainCodec_lossless
           from D1 D2 D3); reflexivity.
Defined.

(** ** The two dispatch stages of FromJSON *)

Lemma applyMappers_WithDetails (mappers : list DetailsMapper)
  (pb : ProtoMessage) (sterr : error) :
  applyMappers mappers pb sterr
  = WithDetails sterr (mappedWrappers mappers pb).
Proof.
  revert sterr. induction mappers as [|mapper rest IH]; intros sterr; simpl.
  - reflexivity.
  - unfold mappedWrappers in *. simpl.
    destruct (Map mapper pb) as [w|]; simpl; apply IH.
Qed.




(** ** Payloads of no built-in kind *)

Lemma layers_replay_In (pbs : list ProtoMessage) (base : error)
  (pb : ProtoMessage) :
  In pb pbs ->
  exists under,
    In (wrapKind pb under)
       (layers (fold_left (fun e pb => wrapKind pb e) pbs base)).
Proof.
  revert base. induction pbs as [|a pbs IH]; intros base Hin.
  - destruct Hin.
  - destruct Hin as [->|Hin]; simpl.
    + exists base.
      destruct (layers_replay pbs (wrapKind pb base)) as [outer ->].
      apply in_or_app. right. apply layers_head.
    + apply IH. exact Hin.
Qed.

Lemma mappedWrappers_wrap (mappers : list DetailsMapper) (pb : ProtoMessage) :
  (forall mapper pb' w,
     In mapper mappers -> Map mapper pb' = Some w -> wrapper w) ->
  Forall wrapper (mappedWrappers mappers pb).
Proof.
  intros H. apply Forall_forall. intros w Hin.
  unfold mappedWrappers in Hin. apply in_flat_map in Hin.
  destruct Hin as (mapper & Hm & Hw).
  destruct (Map mapper pb) as [w'|] eqn:Hmap; [|destruct Hw].
  destruct Hw as [<-|[]]. exact (H mapper pb w' Hm Hmap).
Qed.

Lemma layers_step (mappers : list DetailsMapper) (pb : ProtoMessage)
  (e : error) :
  (forall mapper pb' w,
     In mapper mappers -> Map mapper pb' = Some w -> wrapper w) ->
  incl (layers e) (layers (wrapKind pb (applyMappers mappers pb e))).
Proof.
  intros H. rewrite wrapKind_layers, applyMappers_WithDetails.
  apply incl_tl. apply layers_WithDetails.
  apply mappedWrappers_wrap. exact H.
Qed.

Lemma layers_replay_mappers (mappers : list DetailsMapper)
  (pbs : list ProtoMessage) (base : error) :
  (forall mapper pb' w,
     In mapper mappers -> Map mapper pb' = Some w -> wrapper w) ->
  incl (layers base)
    (layers (fold_left (fun e pb => wrapKind pb (applyMappers mappers pb e))
               pbs base)).
Proof.
  intros H. revert base.
  induction pbs as [|pb pbs IH]; intros base; simpl.
  - apply incl_refl.
  - eapply incl_tran; [|apply IH]. apply layers_step. exact H.
Qed.

Lemma layers_replay_mappers_In (mappers : list DetailsMapper)
  (pbs : list ProtoMessage) (base : error) (pb : ProtoMessage) :
  (forall mapper pb' w,
     In mapper mappers -> Map mapper pb' = Some w -> wrapper w) ->
  In pb pbs ->
  exists under,
    In (wrapKind pb under)
       (layers (fold_left
                  (fun e pb => wrapKind pb (applyMappers mappers pb e))
                  pbs base)).
Proof.
  intros H. revert base.
  induction pbs as [|a pbs IH]; intros base Hin.
  - destruct Hin.
  - destruct Hin as [->|Hin]; simpl.
    + exists (applyMappers mappers pb base).
      apply (layers_replay_mappers mappers pbs _ H). apply layers_head.
    + apply IH. exact Hin.
Qed.

Lemma detailsOf_In (e l : error) (msg : ProtoMessage) :
  In l (layers e) -> asProtoMessage l = Some msg -> In msg (detailsOf e).
Proof.
  intros Hin Hmsg. unfold detailsOf. apply in_flat_map.
  exists l. rewrite Hmsg. split; [exact Hin|]. left. reflexivity.
Qed.

(** C8. In [FromJSON], a decoded payload of no built-in kind is not a
    failure.  Whatever the payloads [pbs] the details of the envelope decode
    to, and whatever the mappers, provided the wrappers they return wrap:
    the error returned holds every one of the payloads, none dropped; a
    payload of no built-in kind sits, as it was decoded, in an
    [arbitraryError] layer, which the type switch puts on after the mappers
    have run; and the chain still ends in the code layer built from the
    envelope.  Without mappers the details of the error returned are
    exactly the payloads, the last of the envelope outermost. *)
Theorem FromJSON_keeps_unknown_kinds (codec : Codec) (b : bytes codec)
  (s : statuspb.Status (Any codec)) (pbs : list ProtoMessage)
  (mappers : list DetailsMapper) :
  protojson_Unmarshal codec b = Ok s ->
  traverse (anypb_UnmarshalNew codec) (statuspb.Details s) = Ok pbs ->
  (forall mapper pb w,
     In mapper mappers -> Map mapper pb = Some w -> wrapper w) ->
  let err := FromJSON codec (Ok b) mappers in
  (forall pb, In pb pbs -> In pb (detailsOf err))
  /\ (forall pb, In pb pbs -> builtinKind pb = false ->
                 exists under, In (arbitraryError under pb) (layers err))
  /\ (forall sterr name content,
        wrapKind (PBOther name content) (applyMappers mappers
                                           (PBOther name content) sterr)
        = arbitraryError (applyMappers mappers (PBOther name content) sterr)
            (PBOther name content))
  /\ In (New (uint32 (statuspb.Code s)) (statuspb.Message s) []) (layers err)
  /\ (mappers = [] -> detailsOf err = rev pbs).
Proof.
  intros Hs Hd Hwrap err. subst err.
  rewrite (FromJSON_eq codec b s pbs mappers Hs Hd).
  split; [|split; [|split; [|split]]].
  - intros pb Hin.
    destruct (layers_replay_mappers_In mappers pbs
                (New (uint32 (statuspb.Code s)) (statuspb.Message s) [])
                pb Hwrap Hin) as [under H].
    apply (detailsOf_In _ _ pb H). apply wrapKind_message.
  - intros pb Hin Hk.
    destruct (layers_replay_mappers_In mappers pbs
                (New (uint32 (statuspb.Code s)) (statuspb.Message s) [])
                pb Hwrap Hin) as [under H].
    exists under. destruct pb; try discriminate. exact H.
  - reflexivity.
  - apply (layers_replay_mappers mappers pbs _ Hwrap). apply layers_head.
  - intros ->. cbn [applyMappers].
    rewrite detailsOf_replay. apply app_nil_r.
Qed.

Lemma FromJSON_keeps_unknown_kinds_witness :
  let unknown := PBOther "example.Receipt" "number: 7" in
  let msg := {| detailspb.RequestId := "123456789";
                detailspb.ServingData := "" |} in
  let mapper : DetailsMapper :=
    fun pb => match pb with
              | PBOther _ _ => Some (wrapError "a receipt")
              | _ => None
              end in
  let err :=
    FromJSON plainCodec
      (Ok {| statuspb.Code := 13;
             statuspb.Message := "Internal: lost";
             statuspb.Details := [unknown; PBRequestInfo msg] |}) [mapper] in
  err = errRequestInfo
          (arbitraryError
             (wrapError "a receipt"
                (errCodeError (errorString "Internal: lost") codes.Internal))
             unknown) msg
  /\ (forall pb, In pb [unknown; PBRequestInfo msg] ->
                 In pb (detailsOf err))
  /\ (forall pb, In pb [unknown; PBRequestInfo msg] ->
                 builtinKind pb = false ->
                 exists under, In (arbitraryError under pb) (layers err))
  /\ In (New 13 "Internal: lost" []) (layers err).
Proof.
  intros unknown msg mapper err. split; [reflexivity|].
  assert (Hwrap : forall mapper' pb w,
             In mapper' [mapper] -> Map mapper' pb = Some w -> wrapper w).
  { intros mapper' pb w [<-|[]] Hw. destruct pb; try discriminate Hw.
    injection Hw as <-. intros e. reflexivity. }
  destruct (FromJSON_keeps_unknown_kinds plainCodec
              {| statuspb.Code := 13;
                 statuspb.Message := "Internal: lost";
                 statuspb.Details := [unknown; PBRequestInfo msg] |}
              _ [unknown; PBRequestInfo msg] [mapper] eq_refl eq_refl Hwrap)
    as (Hall & Hother & _ & Hbase & _).
  split; [exact Hall|]. split; [exact Hother|exact Hbase].
Defined.

(** ** Chains without a status code *)

Lemma firstSome_None {A B : Type} (f : A -> option B) (l : list A) :
  (forall a, In a l -> f a = None) -> firstSome f l = None.
Proof.
  induction l as [|a l IH]; intros H; simpl.
  - reflexivity.
  - rewrite (H a (or_introl eq_refl)). apply IH.
    intros a' Hin. apply H. right. exact Hin.
Qed.

(** C9. [ToJSON] of an error none of whose layers has a [GRPCStatus] method
    does not fail for want of a code: the status layer is a new
    [codes.Unknown] layer whose cause is the error given, the envelope has
    the code of [Unknown] and the text of that layer, and its details are
    those of the error given, walked from its own head.  What the codec
    encodes is what [ToJSON] returns. *)
Theorem ToJSON_without_status_code (codec : Codec) (from : error) :
  (forall l, In l (layers from) -> asStatusError l = None) ->
  toStatus from = errCodeError from codes.Unknown
  /\ errors_Unwrap (toStatus from) = Some from
  /\ ToJSON codec from
     = (anys <- traverse (anypb_New codec) (detailsOf from) ;;
        protojson_Marshal codec
          {| statuspb.Code := 2;
             statuspb.Message := "Unknown: " ++ Error from;
             statuspb.Details := anys |})
  /\ (forall anys b,
        traverse (anypb_New codec) (detailsOf from) = Ok anys ->
        protojson_Marshal codec
          {| statuspb.Code := 2;
             statuspb.Message := "Unknown: " ++ Error from;
             statuspb.Details := anys |} = Ok b ->
        ToJSON codec from = Ok b).
Proof.
  intros H.
  assert (Hst : toStatus from = errCodeError from codes.Unknown).
  { unfold toStatus, errors_As. rewrite (firstSome_None _ _ H). reflexivity. }
  assert (Heq : ToJSON codec from
                = (anys <- traverse (anypb_New codec) (detailsOf from) ;;
                   protojson_Marshal codec
                     {| statuspb.Code := 2;
                        statuspb.Message := "Unknown: " ++ Error from;
                        statuspb.Details := anys |})).
  { rewrite ToJSON_eq. unfold classify. rewrite Hst. reflexivity. }
  split; [exact Hst|]. split; [rewrite Hst; reflexivity|].
  split; [exact Heq|].
  intros anys b Ha Hb. rewrite Heq, Ha. exact Hb.
Qed.

Lemma ToJSON_without_status_code_witness :
  let from :=
    WithDetails (errors_New "connection reset")
      [BadRequest [details.Other {| detailspb.fv_Field := "port";
                                    detailspb.fv_Description := "closed" |}]] in
  toStatus from = errCodeError from codes.Unknown
  /\ ToJSON plainCodec from
     = Ok {| statuspb.Code := 2;
             statuspb.Message := "Unknown: connection reset";
             statuspb.Details :=
               [PBBadRequest
                  {| detailspb.FieldViolations :=
                       [{| detailspb.fv_Field := "port";
                           detailspb.fv_Description := "closed" |}] |}] |}.
Proof.
  intros from.
  assert (H : forall l, In l (layers from) -> asStatusError l = None).
  { intros l [<-|[<-|[]]]; reflexivity. }
  destruct (ToJSON_without_status_code plainCodec from H)
    as (Hst & _ & Heq & _).
  split; [exact Hst|exact Heq].
Defined.

(** ** The wrappers of the package wrap *)

Lemma package_wrappers :
  (forall code, wrapper (Code code))
  /\ (forall violations, detailWrapper (BadRequest violations))
  /\ (forall links, detailWrapper (Help links))
  /\ (forall info, detailWrapper (RequestInfo info))
  /\ (forall info, detailWrapper (Debug info))
  /\ (forall info, detailWrapper (Cause info))
  /\ (forall msg, detailWrapper (LocalizedMessage msg))
  /\ (forall violations, detailWrapper (PreconditionFailure violations))
  /\ (forall violations, detailWrapper (QuotaFailure violations))
  /\ (forall delay, detailWrapper (RetryDelay delay))
  /\ (forall info, detailWrapper (Resource info)).
Proof.
  repeat split; reflexivity.
Qed.

Lemma detailWrapper_wrapper (d : Details) : detailWrapper d -> wrapper d.
Proof. intros H e. apply H. Qed.

Lemma errors_As_status_WithDetails (ds : list Details) (base : error) :
  Forall detailWrapper ds ->
  errors_As asStatusError (WithDetails base ds)
  = errors_As asStatusError base.
Proof.
  intros H. revert base.
  induction H as [|d ds Hd _ IH]; intros base; simpl.
  - reflexivity.
  - rewrite IH. unfold errors_As.
    rewrite (layers_wrapper d base (detailWrapper_wrapper d Hd)). simpl.
    destruct (Hd base) as [_ ->]. reflexivity.
Qed.

(** ** The message over a round trip *)

(** C10. [FromJSON] builds its base layer with [New] from the code and the
    message of the envelope, and that message is the text of the status
    layer, which starts with the name of the code.  So for a chain made by
    [New] with code [C] (a [uint32]), message [m] and detail wrappers, the
    error read back from what [ToJSON] wrote has the text
    "<name of C>: <name of C>: <m>". *)
Theorem roundtrip_repeats_code_name (codec : Codec) (lossless : Lossless codec)
  (C : codes.Code) (m : string) (ds : list Details) (b : bytes codec) :
  0 <= C < 2 ^ 32 ->
  Forall detailWrapper ds ->
  ToJSON codec (New C m ds) = Ok b ->
  Error (FromJSON codec (Ok b) [])
  = codes.String C ++ ": " ++ codes.String C ++ ": " ++ m.
Proof.
  intros HC Hds H.
  destruct (roundtrip_details_rev codec lossless _ b H) as [-> _].
  rewrite Error_replay.
  assert (Hst : toStatus (New C m ds) = errCodeError (errors_New m) C).
  { unfold toStatus, New.
    rewrite (errors_As_status_WithDetails ds _ Hds). reflexivity. }
  unfold classify. rewrite Hst. simpl.
  rewrite (uint32_small C HC). reflexivity.
Qed.

Lemma roundtrip_repeats_code_name_witness :
  Error (FromJSON plainCodec
           (Ok {| statuspb.Code := 5;
                  statuspb.Message := "NotFound: no such table";
                  statuspb.Details :=
                    [PBRetryInfo
                       {| detailspb.RetryDelay :=
                            Some {| durationpb.Seconds := 60;
                                    durationpb.Nanos := 0 |} |}] |}) [])
  = "NotFound: NotFound: no such table".
Proof.
  apply (roundtrip_repeats_code_name plainCodec plainCodec_lossless
           codes.NotFound "no such table" [RetryDelay time.Minute]).
  - unfold codes.NotFound. lia.
  - constructor; [|constructor]. intros e. split; reflexivity.
  - reflexivity.
Defined.

(** ** Sentinels *)

Lemma sentinels_shape (s : error) :
  In s sentinels ->
  exists c, 1 <= c <= 16 /\ s = errCodeError errUnknown c.
Proof.
  intros H. simpl in H.
  repeat (destruct H as [<-|H];
          [eexists; split; [|reflexivity]; unfold codes.Canceled, codes.Unknown,
             codes.InvalidArgument, codes.DeadlineExceeded, codes.NotFound,
             codes.AlreadyExists, codes.PermissionDenied,
             codes.ResourceExhausted, codes.FailedPrecondition, codes.Aborted,
             codes.OutOfRange, codes.Unimplemented, codes.Internal,
             codes.Unavailable, codes.DataLoss, codes.Unauthenticated; lia|]).
  destruct H.
Qed.

Lemma sentinelFor_Some (c : codes.Code) (s : error) :
  sentinelFor c = Some s -> s = errCodeError errUnknown c.
Proof.
  intros H. apply find_some in H. destruct H as [Hin Hc].
  destruct (sentinels_shape s Hin) as (c' & _ & ->).
  apply Z.eqb_eq in Hc. subst c'. reflexivity.
Qed.

Lemma sentinelFor_declared (c : codes.Code) :
  In c codes.all -> c <> codes.OK ->
  sentinelFor c = Some (errCodeError errUnknown c).
Proof.
  intros Hin Hc. simpl in Hin.
  repeat (destruct Hin as [<-|Hin]; [try reflexivity; contradiction|]).
  destruct Hin.
Qed.

(** C6, as stated, fails at [codes.OK]: it is a code of the closed set, and
    there is no sentinel for [errors.Is] to hold against. *)
Lemma no_sentinel_to_match_OK :
  ~ (forall (sameError : error -> error -> bool)
       (sameMessage : ProtoMessage -> ProtoMessage -> bool)
       (C : codes.Code) (m : string) (ds : list Details),
       In C codes.all -> Forall wrapper ds ->
       exists s,
         sentinelFor C = Some s
         /\ errors_Is sameError sameMessage (New C m ds) s = true).
Proof.
  intros H.
  destruct (H (fun _ _ => false) (fun _ _ => false) codes.OK "done" []
              (or_introl eq_refl) (Forall_nil _)) as (s & Hs & _).
  discriminate Hs.
Qed.

(** C6, amended. For every code [C] of the closed set other than
    [codes.OK], every message and wrappers, the sentinel of [C] is declared
    and [errors.Is] holds between [New (C, m, ...)] and it.  For every code
    [C], [codes.OK] too, [errors.Is] holds between [New (C, m, ...)] and any
    code layer with the code [C], whatever its cause; and the [Is] method of
    a code layer accepts a target exactly when the target is a code layer
    with the same code: neither the message nor the cause takes part in
    it. *)
Theorem errors_Is_by_code_alone (sameError : error -> error -> bool)
  (sameMessage : ProtoMessage -> ProtoMessage -> bool)
  (C : codes.Code) (m : string) (ds : list Details) :
  Forall wrapper ds ->
  (In C codes.all -> C <> codes.OK ->
   exists s,
     sentinelFor C = Some s
     /\ s = errCodeError errUnknown C
     /\ errors_Is sameError sameMessage (New C m ds) s = true)
  /\ (forall cause,
        errors_Is sameError sameMessage (New C m ds) (errCodeError cause C)
        = true)
  /\ (forall s, sentinelFor C = Some s ->
                errors_Is sameError sameMessage (New C m ds) s = true)
  /\ (forall err target,
        Is sameMessage (errCodeError err C) target = Some true
        <-> exists cause, target = errCodeError cause C).
Proof.
  intros Hds.
  assert (H : forall cause,
             errors_Is sameError sameMessage (New C m ds)
               (errCodeError cause C) = true).
  { intros cause. apply errors_Is_code_layer with (err := errors_New m).
    apply (layers_WithDetails ds _ Hds). apply layers_head. }
  split; [|split; [exact H|split]].
  - intros Hin Hok. exists (errCodeError errUnknown C).
    split; [apply sentinelFor_declared; assumption|].
    split; [reflexivity|apply H].
  - intros s Hs. rewrite (sentinelFor_Some C s Hs). apply H.
  - intros err target. simpl. split.
    + destruct target; try discriminate.
      intros Heq. injection Heq as Heq. apply Z.eqb_eq in Heq. subst. eauto.
    + intros [cause ->]. rewrite Z.eqb_refl. reflexivity.
Qed.

Lemma errors_Is_by_code_alone_witness :
  exists s,
    sentinelFor codes.InvalidArgument = Some s
    /\ s = ErrInvalidArgument
    /\ errors_Is (fun _ _ => false) (fun _ _ => false)
         (New codes.InvalidArgument "bad request"
            [Help []; Code codes.Internal; RetryDelay time.Second])
         s = true.
Proof.
  refine (proj1 (errors_Is_by_code_alone (fun _ _ => false)
                   (fun _ _ => false) codes.InvalidArgument "bad request"
                   [Help []; Code codes.Internal; RetryDelay time.Second] _)
            _ _).
  - repeat constructor.
  - simpl. tauto.
  - discriminate.
Defined.

(** C5, as stated, fails: the closed set has seventeen codes and the [var]
    block declares sixteen sentinels; none is declared for [codes.OK]. *)
Lemma no_sentinel_for_OK :
  ~ (forall c, In c codes.all ->
               exists s, In s sentinels /\ s = errCodeError errUnknown c).
Proof.
  intros H. destruct (H codes.OK (or_introl eq_refl)) as (s & Hin & ->).
  destruct (sentinels_shape _ Hin) as (c & Hc & Heq).
  injection Heq as Heq. unfold codes.OK in Heq. lia.
Qed.

(** C5, amended. A sentinel is declared for each of the sixteen codes of the
    closed set other than [codes.OK], [codes.Unknown] among them; each is a
    code layer whose cause is the placeholder [errUnknown]; and these are
    all the sentinels there are. *)
Theorem sentinel_for_each_error_code (c : codes.Code) :
  In c codes.all -> c <> codes.OK ->
  sentinelFor c = Some (errCodeError errUnknown c)
  /\ In (errCodeError errUnknown c) sentinels
  /\ List.length sentinels = 16%nat
  /\ (forall s, In s sentinels ->
                exists c', In c' codes.all /\ c' <> codes.OK
                           /\ s = errCodeError errUnknown c').
Proof.
  intros Hin Hc.
  assert (Hfor : sentinelFor c = Some (errCodeError errUnknown c)).
  { simpl in Hin.
    repeat (destruct Hin as [<-|Hin]; [try reflexivity; contradiction|]).
    destruct Hin. }
  split; [exact Hfor|]. split; [|split; [reflexivity|]].
  - apply find_some in Hfor. apply Hfor.
  - intros s Hs. destruct (sentinels_shape s Hs) as (c' & Hr & ->).
    exists c'. split; [|split; [|reflexivity]].
    + assert (Hcases : c' = 1 \/ c' = 2 \/ c' = 3 \/ c' = 4 \/ c' = 5
                       \/ c' = 6 \/ c' = 7 \/ c' = 8 \/ c' = 9 \/ c' = 10
                       \/ c' = 11 \/ c' = 12 \/ c' = 13 \/ c' = 14
                       \/ c' = 15 \/ c' = 16) by lia.
      simpl. right.
      repeat (destruct Hcases as [->|Hcases]; [tauto|]).
      subst c'. tauto.
    + unfold codes.OK. lia.
Qed.

Lemma sentinel_for_each_error_code_witness :
  sentinelFor codes.Unknown = Some ErrUnknown
  /\ In ErrUnknown sentinels
  /\ List.length sentinels = 16%nat
  /\ (forall s, In s sentinels ->
                exists c', In c' codes.all /\ c' <> codes.OK
                           /\ s = errCodeError errUnknown c').
Proof.
  apply (sentinel_for_each_error_code codes.Unknown).
  - simpl. tauto.
  - discriminate.
Defined.

(** ** Appending violations *)

Lemma materialize_FieldViolation (v : details.FieldViolation) :
  match v with
  | details.Native violation => violation
  | _ => {| detailspb.fv_Field := BadRequestError.GetField v;
            detailspb.fv_Description := BadRequestError.GetDescription v |}
  end = details.get v.
Proof. destruct v as [p|[f d]]; reflexivity. Qed.

Lemma WithViolation_GetViolations (e : BadRequestError.t)
  (violations : list details.FieldViolation) :
  BadRequestError.GetViolations (BadRequestError.WithViolation e violations)
  = (BadRequestError.GetViolations e
     ++ map (fun v => details.Native (details.get v)) violations)%list.
Proof.
  unfold BadRequestError.GetViolations, BadRequestError.WithViolation. simpl.
  rewrite map_app, map_map. apply (f_equal (app _)).
  apply map_ext. intros v. rewrite materialize_FieldViolation. reflexivity.
Qed.

(** C7, as stated, fails on a layer that already has a violation: the three
    appended come after it. *)
Lemma WithViolation_keeps_earlier_items :
  ~ (forall (e : BadRequestError.t) (v1 v2 v3 : details.FieldViolation),
       BadRequestError.GetViolations
         (BadRequestError.WithViolation
            (BadRequestError.WithViolation e [v1; v2]) [v3])
       = [v1; v2; v3]).
Proof.
  intros H.
  pose (v := fun field =>
               details.Native {| detailspb.fv_Field := field;
                                 detailspb.fv_Description := "empty" |}).
  specialize (H (WithBadRequest (errors_New "test error") [v "username"])
                (v "email") (v "password") (v "locale")).
  discriminate H.
Qed.

(** C7, amended. On every [BadRequest] layer, [WithViolation] with
    [v1; v2] and then [WithViolation] with [v3] leaves [GetViolations] equal
    to the violations the layer had before, followed by [v1], [v2], [v3] in
    that order, each as the native fragment (itself when it was one, one
    with the same field and description otherwise); on a layer made with no
    violation that is these three alone. *)
Theorem WithViolation_appends (e : BadRequestError.t)
  (v1 v2 v3 : details.FieldViolation) :
  BadRequestError.GetViolations
    (BadRequestError.WithViolation
       (BadRequestError.WithViolation e [v1; v2]) [v3])
  = (BadRequestError.GetViolations e
     ++ [details.Native (details.get v1); details.Native (details.get v2);
         details.Native (details.get v3)])%list
  /\ forall err,
       BadRequestError.GetViolations
         (BadRequestError.WithViolation
            (BadRequestError.WithViolation (WithBadRequest err []) [v1; v2])
            [v3])
       = [details.Native (details.get v1); details.Native (details.get v2);
          details.Native (details.get v3)].
Proof.
  assert (H : forall e',
             BadRequestError.GetViolations
               (BadRequestError.WithViolation
                  (BadRequestError.WithViolation e' [v1; v2]) [v3])
             = (BadRequestError.GetViolations e'
                ++ [details.Native (details.get v1);
                    details.Native (details.get v2);
                    details.Native (details.get v3)])%list).
  { intros e'. rewrite !WithViolation_GetViolations, <- app_assoc.
    reflexivity. }
  split; [apply H|]. intros err. rewrite H. reflexivity.
Qed.

(** * Further properties of the package *)

(** ** Retry delays *)

Lemma int64_small (z : Z) : MinInt64 <= z <= MaxInt64 -> int64 z = z.
Proof.
  unfold int64, MinInt64, MaxInt64. intros H.
  rewrite Z.mod_small; lia.
Qed.

Lemma int32_small (z : Z) : - 2 ^ 31 <= z < 2 ^ 31 -> int32 z = z.
Proof.
  unfold int32. intros H. rewrite Z.mod_small; lia.
Qed.

Lemma durationpb_roundtrip (d : time.Duration) :
  MinInt64 <= d <= MaxInt64 ->
  durationpb.AsDuration (Some (durationpb.New d)) = d.
Proof.
  intros Hd. unfold MinInt64, MaxInt64 in Hd.
  pose proof (Z.quot_rem' d 1000000000) as Hqr.
  assert (Hrem : Z.abs (Z.rem d 1000000000) < 1000000000)
    by (apply Z.rem_bound_abs; lia).
  assert (Hsgn : 0 <= Z.rem d 1000000000 * d)
    by (apply Z.rem_sign_mul; lia).
  set (secs := Z.quot d 1000000000) in *.
  set (rem := Z.rem d 1000000000) in *.
  assert (Hsecs : - 9223372037 <= secs <= 9223372037) by nia.
  assert (Hmul : - 2 ^ 63 <= secs * 1000000000 <= 2 ^ 63 - 1) by nia.
  unfold durationpb.AsDuration, durationpb.New. cbn [durationpb.Seconds
    durationpb.Nanos]. fold secs.
  replace (d - secs * 1000000000) with rem by lia.
  rewrite (int64_small secs) by (unfold MinInt64, MaxInt64; lia).
  rewrite (int32_small rem) by lia.
  unfold time.Second, time.Nanosecond.
  rewrite (int64_small (secs * 1000000000))
    by (unfold MinInt64, MaxInt64; lia).
  rewrite Z.quot_mul by lia. rewrite Z.eqb_refl. cbn [negb orb].
  rewrite Z.mul_1_r.
  rewrite (int64_small rem) by (unfold MinInt64, MaxInt64; lia).
  replace (secs * 1000000000 + rem) with d by lia.
  rewrite (int64_small d) by (unfold MinInt64, MaxInt64; lia).
  destruct (secs <? 0) eqn:Hneg; destruct (0 <? secs) eqn:Hpos;
    destruct (rem <? 0) eqn:Hrn; destruct (0 <? rem) eqn:Hrp;
    destruct (0 <? d) eqn:Hdp; destruct (d <? 0) eqn:Hdn;
    cbn [andb orb]; try reflexivity; exfalso;
    repeat match goal with
           | H : (_ <? _) = true |- _ => apply Z.ltb_lt in H
           | H : (_ <? _) = false |- _ => apply Z.ltb_ge in H
           end; nia.
Qed.

(** X1. A retry delay comes back as it was given: for every [int64]
    duration, [GetRetryDelay] of [WithRetryDelay (err, d)] is [d], and so is
    [GetRetryDelay] after [WithDelay (d)] on any layer, whatever delay the
    layer had before. *)
Theorem GetRetryDelay_WithRetryDelay (err : error) (e : RetriableError.t)
  (d : time.Duration) :
  MinInt64 <= d <= MaxInt64 ->
  RetriableError.GetRetryDelay (WithRetryDelay err d) = d
  /\ RetriableError.GetRetryDelay (RetriableError.WithDelay e d) = d
  /\ errors_As RetriableError.assert (Wrap (RetryDelay d) err)
     = Some (WithRetryDelay err d).
Proof.
  intros Hd. split; [|split].
  - apply durationpb_roundtrip. exact Hd.
  - apply durationpb_roundtrip. exact Hd.
  - reflexivity.
Qed.

Lemma GetRetryDelay_WithRetryDelay_witness :
  RetriableError.GetRetryDelay
    (WithRetryDelay (errors_New "test error") (-1500000001))
  = -1500000001.
Proof.
  apply (GetRetryDelay_WithRetryDelay (errors_New "test error")
           (WithRetryDelay (errors_New "test error") 0) (-1500000001)).
  unfold MinInt64, MaxInt64. lia.
Defined.

(** ** The items of the list kinds *)

Ltac items_same :=
  rewrite !map_map; apply map_ext;
  let v := fresh "v" in
  intros v; destruct v as [p|p]; destruct p; reflexivity.

Ltac items_appended :=
  cbn; rewrite map_app, map_map; apply (f_equal (app _)); apply map_ext;
  let v := fresh "v" in
  intros v; destruct v as [p|p]; destruct p; reflexivity.

(** X2. [WithBadRequest (err, violations...)] holds the violations given, in
    their order and with their fields and descriptions, whether an item is
    the native fragment or another implementation; [errors.As] finds the
    layer on the wrapped error; and [WithViolation] with any list puts its
    items after those the layer has, dropping and reordering none. *)
Theorem WithBadRequest_items (err : error)
  (violations more : list details.FieldViolation) (e : BadRequestError.t) :
  map BadRequestError.GetField
    (BadRequestError.GetViolations (WithBadRequest err violations))
  = map BadRequestError.GetField violations
  /\ map BadRequestError.GetDescription
       (BadRequestError.GetViolations (WithBadRequest err violations))
     = map BadRequestError.GetDescription violations
  /\ errors_As BadRequestError.assert (Wrap (BadRequest violations) err)
     = Some (WithBadRequest err violations)
  /\ BadRequestError.GetViolations (BadRequestError.WithViolation e more)
     = (BadRequestError.GetViolations e
        ++ map (fun v => details.Native (details.get v)) more)%list.
Proof.
  split; [|split; [|split]].
  - unfold WithBadRequest, BadRequestError.GetViolations,
      BadRequestError.WithViolation. cbn. items_same.
  - unfold WithBadRequest, BadRequestError.GetViolations,
      BadRequestError.WithViolation. cbn. items_same.
  - reflexivity.
  - unfold BadRequestError.GetViolations, BadRequestError.WithViolation.
    items_appended.
Qed.

(** X3. [WithHelp (err, links...)] holds the links given, in their order and
    with their URLs and descriptions; [errors.As] finds the layer; and
    [WithLinks] with any list puts its links after those the layer has. *)
Theorem WithHelp_items (err : error) (links more : list details.HelpLink)
  (h : HelpfulError.t) :
  map HelpfulError.GetUrl (HelpfulError.GetLinks (WithHelp err links))
  = map HelpfulError.GetUrl links
  /\ map HelpfulError.GetDescription
       (HelpfulError.GetLinks (WithHelp err links))
     = map HelpfulError.GetDescription links
  /\ errors_As HelpfulError.assert (Wrap (Help links) err)
     = Some (WithHelp err links)
  /\ HelpfulError.GetLinks (HelpfulError.WithLinks h more)
     = (HelpfulError.GetLinks h
        ++ map (fun v => details.Native (details.get v)) more)%list.
Proof.
  split; [|split; [|split]].
  - unfold WithHelp, HelpfulError.GetLinks, HelpfulError.WithLinks.
    cbn. items_same.
  - unfold WithHelp, HelpfulError.GetLinks, HelpfulError.WithLinks.
    cbn. items_same.
  - reflexivity.
  - unfold HelpfulError.GetLinks, HelpfulError.WithLinks. items_appended.
Qed.

(** X4. [WithPreconditionFailure (err, violations...)] holds the violations
    given, in their order and with their types, subjects and descriptions;
    [errors.As] finds the layer; and [WithViolation] with any list puts its
    items after those the layer has. *)
Theorem WithPreconditionFailure_items (err : error)
  (violations more : list details.PreconditionViolation)
  (e : FailedPreconditionError.t) :
  map (fun v => (FailedPreconditionError.GetType v,
                 FailedPreconditionError.GetSubject v,
                 FailedPreconditionError.GetDescription v))
    (FailedPreconditionError.GetViolations
       (WithPreconditionFailure err violations))
  = map (fun v => (FailedPreconditionError.GetType v,
                   FailedPreconditionError.GetSubject v,
                   FailedPreconditionError.GetDescription v)) violations
  /\ errors_As FailedPreconditionError.assert
       (Wrap (PreconditionFailure violations) err)
     = Some (WithPreconditionFailure err violations)
  /\ FailedPreconditionError.GetViolations
       (FailedPreconditionError.WithViolation e more)
     = (FailedPreconditionError.GetViolations e
        ++ map (fun v => details.Native (details.get v)) more)%list.
Proof.
  split; [|split].
  - unfold WithPreconditionFailure, FailedPreconditionError.GetViolations,
      FailedPreconditionError.WithViolation. cbn. items_same.
  - reflexivity.
  - unfold FailedPreconditionError.GetViolations,
      FailedPreconditionError.WithViolation. items_appended.
Qed.

(** X5. [WithQuotaFailure (err, violations...)] holds the violations given,
    in their order and with their subjects and descriptions; [errors.As]
    finds the layer; and [WithViolation] with any list puts its items after
    those the layer has. *)
Theorem WithQuotaFailure_items (err : error)
  (violations more : list details.QuotaViolation) (e : FailedQuotaError.t) :
  map (fun v => (FailedQuotaError.GetSubject v,
                 FailedQuotaError.GetDescription v))
    (FailedQuotaError.GetViolations (WithQuotaFailure err violations))
  = map (fun v => (FailedQuotaError.GetSubject v,
                   FailedQuotaError.GetDescription v)) violations
  /\ errors_As FailedQuotaError.assert (Wrap (QuotaFailure violations) err)
     = Some (WithQuotaFailure err violations)
  /\ FailedQuotaError.GetViolations (FailedQuotaError.WithViolation e more)
     = (FailedQuotaError.GetViolations e
        ++ map (fun v => details.Native (details.get v)) more)%list.
Proof.
  split; [|split].
  - unfold WithQuotaFailure, FailedQuotaError.GetViolations,
      FailedQuotaError.WithViolation. cbn. items_same.
  - reflexivity.
  - unfold FailedQuotaError.GetViolations, FailedQuotaError.WithViolation.
    items_appended.
Qed.

(** ** The detail wrappers and the type switch of FromJSON *)

Ltac kind_layer :=
  let e := fresh "e" in
  intros e;
  unfold Wrap, BadRequest, Help, RequestInfo, Debug, Cause, LocalizedMessage,
    PreconditionFailure, QuotaFailure, RetryDelay, Resource, wrapperFunc,
    WithBadRequest, WithHelp, WithRequestInfo, WithDebug, WithCause,
    WithLocalizedMessage, WithPreconditionFailure, WithQuotaFailure,
    WithRetryDelay, WithResource, BadRequestError.layer, HelpfulError.layer,
    FailedPreconditionError.layer, FailedQuotaError.layer,
    RetriableError.layer;
  cbn; f_equal; try f_equal;
  try (apply map_ext; let v := fresh "v" in
       intros v; destruct v as [p|p]; destruct p; reflexivity).

Lemma kindWrappers_of_package :
  (forall violations,
     kindWrapper (BadRequest violations)
       (PBBadRequest
          {| detailspb.FieldViolations := map details.get violations |}))
  /\ (forall links,
        kindWrapper (Help links)
          (PBHelp {| detailspb.Links := map details.get links |}))
  /\ (forall info,
        kindWrapper (RequestInfo info) (PBRequestInfo (details.get info)))
  /\ (forall info, kindWrapper (Debug info) (PBDebugInfo (details.get info)))
  /\ (forall info, kindWrapper (Cause info) (PBErrorInfo (details.get info)))
  /\ (forall msg,
        kindWrapper (LocalizedMessage msg)
          (PBLocalizedMessage (details.get msg)))
  /\ (forall violations,
        kindWrapper (PreconditionFailure violations)
          (PBPreconditionFailure
             {| detailspb.pf_Violations := map details.get violations |}))
  /\ (forall violations,
        kindWrapper (QuotaFailure violations)
          (PBQuotaFailure
             {| detailspb.qf_Violations := map details.get violations |}))
  /\ (forall delay,
        kindWrapper (RetryDelay delay)
          (PBRetryInfo
             {| detailspb.RetryDelay := Some (durationpb.New delay) |}))
  /\ (forall info,
        kindWrapper (Resource info) (PBResourceInfo (details.get info))).
Proof.
  repeat split; intros x; kind_layer;
    destruct x as [p|p]; destruct p; reflexivity.
Qed.

(** X6. Each of the ten detail wrappers of wrappers.go puts on the error it
    is given exactly the layer that the type switch of [FromJSON] builds for
    one payload: the payload with the items, or the fields, of its
    arguments. *)
Theorem package_kindWrappers :
  (forall violations,
     kindWrapper (BadRequest violations)
       (PBBadRequest
          {| detailspb.FieldViolations := map details.get violations |}))
  /\ (forall links,
        kindWrapper (Help links)
          (PBHelp {| detailspb.Links := map details.get links |}))
  /\ (forall info,
        kindWrapper (RequestInfo info) (PBRequestInfo (details.get info)))
  /\ (forall info, kindWrapper (Debug info) (PBDebugInfo (details.get info)))
  /\ (forall info, kindWrapper (Cause info) (PBErrorInfo (details.get info)))
  /\ (forall msg,
        kindWrapper (LocalizedMessage msg)
          (PBLocalizedMessage (details.get msg)))
  /\ (forall violations,
        kindWrapper (PreconditionFailure violations)
          (PBPreconditionFailure
             {| detailspb.pf_Violations := map details.get violations |}))
  /\ (forall violations,
        kindWrapper (QuotaFailure violations)
          (PBQuotaFailure
             {| detailspb.qf_Violations := map details.get violations |}))
  /\ (forall delay,
        kindWrapper (RetryDelay delay)
          (PBRetryInfo
             {| detailspb.RetryDelay := Some (durationpb.New delay) |}))
  /\ (forall info,
        kindWrapper (Resource info) (PBResourceInfo (details.get info))).
Proof. exact kindWrappers_of_package. Qed.

Lemma kindWrapper_detailWrapper (d : Details) (msg : ProtoMessage) :
  kindWrapper d msg -> detailWrapper d.
Proof.
  intros H e. rewrite (H e). split.
  - apply wrapKind_unwrap.
  - destruct msg; reflexivity.
Qed.

Lemma kindWrappers_detailWrappers (ds : list Details)
  (msgs : list ProtoMessage) :
  Forall2 kindWrapper ds msgs -> Forall detailWrapper ds.
Proof.
  induction 1 as [|d msg ds msgs Hd _ IH]; constructor.
  - exact (kindWrapper_detailWrapper d msg Hd).
  - exact IH.
Qed.

Lemma WithDetails_kindWrappers (ds : list Details) (msgs : list ProtoMessage)
  (base : error) :
  Forall2 kindWrapper ds msgs ->
  WithDetails base ds = fold_left (fun e pb => wrapKind pb e) msgs base.
Proof.
  intros H. revert base.
  induction H as [|d msg ds msgs Hd _ IH]; intros base; simpl.
  - reflexivity.
  - rewrite (Hd base). apply IH.
Qed.

Lemma Forall2_kindWrapper_rev (ds : list Details) (msgs : list ProtoMessage) :
  Forall2 kindWrapper ds msgs -> Forall2 kindWrapper (rev ds) (rev msgs).
Proof.
  induction 1 as [|d msg ds msgs Hd _ IH]; simpl.
  - constructor.
  - apply Forall2_app; [exact IH|]. constructor; [exact Hd|constructor].
Qed.

Lemma toStatus_New (C : codes.Code) (m : string) (ds : list Details) :
  Forall detailWrapper ds ->
  toStatus (New C m ds) = errCodeError (errors_New m) C.
Proof.
  intros Hds. unfold toStatus, New.
  rewrite (errors_As_status_WithDetails ds _ Hds). reflexivity.
Qed.

Lemma detailsOf_New (C : codes.Code) (m : string) (ds : list Details)
  (msgs : list ProtoMessage) :
  Forall2 kindWrapper ds msgs -> detailsOf (New C m ds) = rev msgs.
Proof.
  intros H. unfold New. rewrite (WithDetails_kindWrappers ds msgs _ H).
  rewrite detailsOf_replay. apply app_nil_r.
Qed.

(** X7. The envelope of a chain made by [New] with [n] detail wrappers: its
    code is [C], its message the name of [C], a colon and [m], and its
    details are the [n] payloads of the wrappers, the one applied last
    first. *)
Theorem ToJSON_New (codec : Codec) (C : codes.Code) (m : string)
  (ds : list Details) (msgs : list ProtoMessage) :
  Forall2 kindWrapper ds msgs ->
  detailsOf (New C m ds) = rev msgs
  /\ ToJSON codec (New C m ds)
     = (anys <- traverse (anypb_New codec) (rev msgs) ;;
        protojson_Marshal codec
          {| statuspb.Code := int32 C;
             statuspb.Message := codes.String C ++ ": " ++ m;
             statuspb.Details := anys |}).
Proof.
  intros H.
  pose proof (detailsOf_New C m ds msgs H) as Hd.
  split; [exact Hd|].
  rewrite ToJSON_eq, Hd. unfold classify.
  rewrite (toStatus_New C m ds (kindWrappers_detailWrappers ds msgs H)).
  reflexivity.
Qed.

Lemma ToJSON_New_witness :
  ToJSON plainCodec
    (New codes.Unavailable "maintenance"
       [RetryDelay time.Minute;
        Help [details.Other {| detailspb.hl_Description := "status page";
                               detailspb.hl_Url := "https://status.test/" |}]])
  = Ok {| statuspb.Code := 14;
          statuspb.Message := "Unavailable: maintenance";
          statuspb.Details :=
            [PBHelp
               {| detailspb.Links :=
                    [{| detailspb.hl_Description := "status page";
                        detailspb.hl_Url := "https://status.test/" |}] |};
             PBRetryInfo
               {| detailspb.RetryDelay :=
                    Some {| durationpb.Seconds := 60;
                            durationpb.Nanos := 0 |} |}] |}.
Proof.
  refine (proj2 (ToJSON_New plainCodec codes.Unavailable "maintenance" _
                   [PBRetryInfo _; PBHelp _] _)).
  constructor; [|constructor; [|constructor]].
  - apply kindWrappers_of_package.
  - apply kindWrappers_of_package.
Defined.

(** X8. The round trip of a chain made by [New]: with a codec that decodes
    what it encoded, [FromJSON] of what [ToJSON] wrote for
    [New (C, m, d1, ..., dn)] is the chain [New (C, m', dn, ..., d1)], where
    [m'] is [m] after the name of [C] and a colon: the same code, the
    message with the prefix, the same detail layers in the opposite order. *)
Theorem roundtrip_New (codec : Codec) (lossless : Lossless codec)
  (C : codes.Code) (m : string) (ds : list Details)
  (msgs : list ProtoMessage) (b : bytes codec) :
  0 <= C < 2 ^ 32 ->
  Forall2 kindWrapper ds msgs ->
  ToJSON codec (New C m ds) = Ok b ->
  FromJSON codec (Ok b) [] = New C (codes.String C ++ ": " ++ m) (rev ds).
Proof.
  intros HC H Hb.
  destruct (roundtrip_details_rev codec lossless _ b Hb) as [-> _].
  rewrite (detailsOf_New C m ds msgs H).
  unfold classify.
  rewrite (toStatus_New C m ds (kindWrappers_detailWrappers ds msgs H)).
  rewrite (uint32_small C HC). cbn [Error errors_New].
  unfold New at 2.
  rewrite (WithDetails_kindWrappers (rev ds) (rev msgs) _
             (Forall2_kindWrapper_rev ds msgs H)).
  reflexivity.
Qed.

Lemma roundtrip_New_witness :
  FromJSON plainCodec
    (ToJSON plainCodec
       (New codes.NotFound "no such table"
          [Resource (details.Native
                       {| detailspb.ResourceType := "table";
                          detailspb.ResourceName := "public.shopify";
                          detailspb.Owner := "";
                          detailspb.ri_Description := "" |});
           BadRequest []])) []
  = New codes.NotFound "NotFound: no such table"
      [BadRequest [];
       Resource (details.Native
                   {| detailspb.ResourceType := "table";
                      detailspb.ResourceName := "public.shopify";
                      detailspb.Owner := "";
                      detailspb.ri_Description := "" |})].
Proof.
  refine (roundtrip_New plainCodec plainCodec_lossless codes.NotFound
            "no such table" [Resource _; BadRequest []]
            [PBResourceInfo _; PBBadRequest _] _ _ _ eq_refl).
  - unfold codes.NotFound. lia.
  - constructor; [|constructor; [|constructor]].
    + apply kindWrappers_of_package.
    + apply (proj1 kindWrappers_of_package []).
Defined.

(** ** errors.Is and the code layers of a chain *)

Lemma errors_Is_code_iff (sameError : error -> error -> bool)
  (sameMessage : ProtoMessage -> ProtoMessage -> bool)
  (e cause : error) (c : codes.Code) :
  (forall a b, sameError a b = true -> a = b) ->
  errors_Is sameError sameMessage e (errCodeError cause c) = true
  <-> exists err, In (errCodeError err c) (layers e).
Proof.
  intros Hsame. split.
  - unfold errors_Is. intros H. apply existsb_exists in H.
    destruct H as (l & Hin & Hm). unfold matches in Hm.
    apply orb_true_iff in Hm. destruct Hm as [Hm|Hm].
    + apply Hsame in Hm. subst l. eauto.
    + destruct l; simpl in Hm; try discriminate.
      apply Z.eqb_eq in Hm. subst. eauto.
  - intros [err H]. apply errors_Is_code_layer with (err := err). exact H.
Qed.

(** X9. [errors.Is] against a code layer as target, for instance a
    sentinel: when equal pointers hold equal values, it is true exactly when
    some layer of the chain is a code layer with the code of the target.  No
    detail layer and no [arbitraryError] ever matches such a target. *)
Theorem errors_Is_code_target (sameError : error -> error -> bool)
  (sameMessage : ProtoMessage -> ProtoMessage -> bool)
  (e cause : error) (c : codes.Code) :
  (forall a b, sameError a b = true -> a = b) ->
  errors_Is sameError sameMessage e (errCodeError cause c) = true
  <-> exists err, In (errCodeError err c) (layers e).
Proof.
  apply errors_Is_code_iff.
Qed.

Lemma errors_Is_code_target_witness :
  errors_Is (fun _ _ => false) (fun _ _ => false)
    (arbitraryError (Wrap (Code codes.Aborted) (errors_New "x"))
       (PBOther "example.Receipt" ""))
    ErrAborted = true.
Proof.
  apply (errors_Is_code_target (fun _ _ => false) (fun _ _ => false)).
  - discriminate.
  - eexists. right. left. reflexivity.
Defined.

Lemma layers_detailWrappers (ds : list Details) (base : error) :
  Forall detailWrapper ds ->
  forall l, In l (layers (WithDetails base ds)) ->
            In l (layers base) \/ asStatusError l = None.
Proof.
  intros H. revert base.
  induction H as [|d ds Hd _ IH]; intros base l Hin; simpl in Hin.
  - left. exact Hin.
  - destruct (IH _ l Hin) as [Hl|Hl]; [|right; exact Hl].
    rewrite (layers_wrapper d base (detailWrapper_wrapper d Hd)) in Hl.
    destruct Hl as [<-|Hl]; [right; apply Hd|left; exact Hl].
Qed.

(** X10. A chain made by [New] with code [C] and detail wrappers satisfies
    [errors.Is] against a code layer with code [C'], so against the sentinel
    of [C'], exactly when [C'] is [C]. *)
Theorem errors_Is_New (sameError : error -> error -> bool)
  (sameMessage : ProtoMessage -> ProtoMessage -> bool)
  (C C' : codes.Code) (m : string) (ds : list Details) (cause : error) :
  (forall a b, sameError a b = true -> a = b) ->
  Forall detailWrapper ds ->
  errors_Is sameError sameMessage (New C m ds) (errCodeError cause C') = true
  <-> C' = C.
Proof.
  intros Hsame Hds.
  rewrite (errors_Is_code_iff sameError sameMessage _ cause C' Hsame).
  split.
  - intros [err Hin]. unfold New in Hin.
    destruct (layers_detailWrappers ds _ Hds _ Hin) as [H|H].
    + simpl in H. destruct H as [H|[H|[]]]; [|discriminate].
      injection H as _ H. symmetry. exact H.
    + discriminate.
  - intros ->. exists (errors_New m). unfold New.
    apply (layers_WithDetails ds).
    + eapply Forall_impl; [|exact Hds]. apply detailWrapper_wrapper.
    + apply layers_head.
Qed.

Lemma errors_Is_New_witness :
  errors_Is (fun _ _ => false) (fun _ _ => false)
    (New codes.NotFound "no such table" [RetryDelay time.Second])
    ErrInternal = true
  <-> codes.Internal = codes.NotFound.
Proof.
  apply (errors_Is_New (fun _ _ => false) (fun _ _ => false)).
  - discriminate.
  - constructor; [|constructor]. intros e. split; reflexivity.
Defined.

(** X11. [Code] over a chain that has a code already: the code of the
    envelope is that of the outermost code layer, and its message the text
    of that layer, which goes on with the text of the layers below; yet
    [errors.Is] still holds against the codes further in. *)
Theorem Code_outermost (codec : Codec) (sameError : error -> error -> bool)
  (sameMessage : ProtoMessage -> ProtoMessage -> bool)
  (e : error) (c : codes.Code) (ds : list Details) :
  Forall detailWrapper ds ->
  let chain := WithDetails (Wrap (Code c) e) ds in
  classify chain = c
  /\ ToJSON codec chain
     = (anys <- traverse (anypb_New codec) (detailsOf chain) ;;
        protojson_Marshal codec
          {| statuspb.Code := int32 c;
             statuspb.Message := codes.String c ++ ": " ++ Error e;
             statuspb.Details := anys |})
  /\ (forall err c' cause,
        In (errCodeError err c') (layers e) ->
        errors_Is sameError sameMessage chain (errCodeError cause c') = true).
Proof.
  intros Hds chain.
  assert (Hst : toStatus chain = errCodeError e c).
  { unfold toStatus, chain.
    rewrite (errors_As_status_WithDetails ds _ Hds). reflexivity. }
  split; [|split].
  - unfold classify. rewrite Hst. reflexivity.
  - rewrite ToJSON_eq. unfold classify. rewrite Hst. reflexivity.
  - intros err c' cause Hin.
    apply errors_Is_code_layer with (err := err). unfold chain.
    apply (layers_WithDetails ds).
    + eapply Forall_impl; [|exact Hds]. apply detailWrapper_wrapper.
    + right. exact Hin.
Qed.

Lemma Code_outermost_witness :
  let chain :=
    WithDetails (New codes.Internal "disk full" [])
      [Code codes.Unavailable; RetryDelay time.Minute] in
  ToJSON plainCodec chain
  = Ok {| statuspb.Code := 14;
          statuspb.Message := "Unavailable: Internal: disk full";
          statuspb.Details :=
            [PBRetryInfo
               {| detailspb.RetryDelay :=
                    Some {| durationpb.Seconds := 60;
                            durationpb.Nanos := 0 |} |}] |}
  /\ errors_Is (fun _ _ => false) (fun _ _ => false) chain ErrInternal = true.
Proof.
  intros chain.
  assert (Hds : Forall detailWrapper [RetryDelay time.Minute]).
  { constructor; [|constructor]. intros e. split; reflexivity. }
  destruct (Code_outermost plainCodec (fun _ _ => false) (fun _ _ => false)
              (New codes.Internal "disk full" []) codes.Unavailable
              [RetryDelay time.Minute] Hds) as (_ & Henv & His).
  split; [exact Henv|].
  apply (His (errors_New "disk full") codes.Internal errUnknown).
  left. reflexivity.
Defined.

(** ** What a round trip keeps *)

Lemma errors_As_status_replay (pbs : list ProtoMessage) (base : error) :
  errors_As asStatusError (fold_left (fun e pb => wrapKind pb e) pbs base)
  = errors_As asStatusError base.
Proof.
  revert base. induction pbs as [|pb pbs IH]; intros base; simpl.
  - reflexivity.
  - rewrite IH. unfold errors_As. rewrite wrapKind_layers. simpl.
    destruct pb; reflexivity.
Qed.

Lemma layers_replay_code (pbs : list ProtoMessage) (base l : error) :
  In l (layers (fold_left (fun e pb => wrapKind pb e) pbs base)) ->
  In l (layers base) \/ asStatusError l = None.
Proof.
  revert base. induction pbs as [|pb pbs IH]; intros base Hin; simpl in Hin.
  - left. exact Hin.
  - destruct (IH _ Hin) as [H|H]; [|right; exact H].
    rewrite wrapKind_layers in H. destruct H as [<-|H].
    + right. destruct pb; reflexivity.
    + left. exact H.
Qed.

(** X12. What a round trip without mappers keeps and what it loses, for any
    chain: the error read back resolves to the code the chain resolved to,
    its text is the name of that code, a colon and the text of the status
    layer of the chain, and it has one code layer only; so [errors.Is]
    against a code layer holds for that code and for no other, whichever
    codes the chain had further in. *)
Theorem roundtrip_code (codec : Codec) (lossless : Lossless codec)
  (sameError : error -> error -> bool)
  (sameMessage : ProtoMessage -> ProtoMessage -> bool)
  (from : error) (b : bytes codec) :
  (forall x y, sameError x y = true -> x = y) ->
  ToJSON codec from = Ok b ->
  let err := FromJSON codec (Ok b) [] in
  classify err = uint32 (classify from)
  /\ Error err
     = codes.String (uint32 (classify from)) ++ ": " ++ Error (toStatus from)
  /\ (forall cause c,
        errors_Is sameError sameMessage err (errCodeError cause c) = true
        <-> c = uint32 (classify from)).
Proof.
  intros Hsame Hb err. subst err.
  destruct (roundtrip_details_rev codec lossless _ b Hb) as [-> _].
  split; [|split].
  - unfold classify at 1, toStatus.
    rewrite errors_As_status_replay. reflexivity.
  - rewrite Error_replay. reflexivity.
  - intros cause c.
    rewrite (errors_Is_code_iff sameError sameMessage _ cause c Hsame).
    split.
    + intros [e Hin]. apply layers_replay_code in Hin.
      destruct Hin as [Hin|Hin]; [|discriminate].
      simpl in Hin. destruct Hin as [H|[H|[]]]; [|discriminate].
      injection H as _ H. symmetry. exact H.
    + intros ->. eexists.
      destruct (layers_replay (detailsOf from)
                  (New (uint32 (classify from)) (Error (toStatus from)) []))
        as [outer ->].
      apply in_or_app. right. left. reflexivity.
Qed.

Lemma roundtrip_code_witness :
  let from :=
    WithDetails (New codes.Internal "disk full" [])
      [Code codes.Unavailable; RetryDelay time.Minute] in
  let err := FromJSON plainCodec (ToJSON plainCodec from) [] in
  errors_Is (fun _ _ => false) (fun _ _ => false) from ErrInternal = true
  /\ classify err = codes.Unavailable
  /\ Error err = "Unavailable: Unavailable: Internal: disk full"
  /\ (forall cause c,
        errors_Is (fun _ _ => false) (fun _ _ => false) err
          (errCodeError cause c) = true
        <-> c = codes.Unavailable).
Proof.
  intros from err. split; [reflexivity|].
  apply (roundtrip_code plainCodec plainCodec_lossless
           (fun _ _ => false) (fun _ _ => false) from).
  - discriminate.
  - reflexivity.
Defined.

(** X13. Two round trips without mappers put the details of any chain back
    in their first order. *)
Theorem roundtrip_twice (codec : Codec) (lossless : Lossless codec)
  (from : error) (b b' : bytes codec) :
  ToJSON codec from = Ok b ->
  ToJSON codec (FromJSON codec (Ok b) []) = Ok b' ->
  detailsOf (FromJSON codec (Ok b') []) = detailsOf from.
Proof.
  intros Hb Hb'.
  destruct (roundtrip_details_rev codec lossless _ b' Hb') as [_ ->].
  destruct (roundtrip_details_rev codec lossless _ b Hb) as [_ ->].
  apply rev_involutive.
Qed.

Lemma roundtrip_twice_witness :
  let from :=
    New codes.NotFound "no such table"
      [RetryDelay time.Minute; BadRequest []; Help []] in
  detailsOf
    (FromJSON plainCodec
       (ToJSON plainCodec
          (FromJSON plainCodec (ToJSON plainCodec from) [])) [])
  = detailsOf from.
Proof.
  intros from.
  exact (roundtrip_twice plainCodec plainCodec_lossless from _ _
           eq_refl eq_refl).
Defined.

(** ** Failures of the codec *)

Lemma traverse_failure {A B : Type} (f : A -> result B) (l1 l2 : list A)
  (a : A) (bs : list B) (err : error) :
  traverse f l1 = Ok bs -> f a = Err err ->
  traverse f (l1 ++ a :: l2) = Err err.
Proof.
  intros H1 Ha. rewrite traverse_app, H1. simpl. rewrite Ha. reflexivity.
Qed.

(** X14. [ToJSON] fails with the error of the codec and writes nothing: when
    a payload of the chain is not encoded, the payloads before it being
    encoded, [ToJSON] returns the error of that payload; and when all are
    encoded but the envelope is not, the error of the envelope. *)
Theorem ToJSON_failure (codec : Codec) (from : error) :
  (forall msgs1 msg msgs2 anys err,
     detailsOf from = (msgs1 ++ msg :: msgs2)%list ->
     traverse (anypb_New codec) msgs1 = Ok anys ->
     anypb_New codec msg = Err err ->
     ToJSON codec from = Err err)
  /\ (forall anys err,
        traverse (anypb_New codec) (detailsOf from) = Ok anys ->
        protojson_Marshal codec
          {| statuspb.Code := int32 (classify from);
             statuspb.Message := Error (toStatus from);
             statuspb.Details := anys |} = Err err ->
        ToJSON codec from = Err err).
Proof.
  split.
  - intros msgs1 msg msgs2 anys err Hd H1 Hm.
    rewrite ToJSON_eq, Hd, (traverse_failure _ _ _ _ _ _ H1 Hm).
    reflexivity.
  - intros anys err Hd Hm. rewrite ToJSON_eq, Hd. exact Hm.
Qed.

Lemma ToJSON_failure_witness :
  ToJSON pickyCodec
    (Wrap (BadRequest [])
       (arbitraryError (New codes.Internal "lost" []) (PBOther "" "raw")))
  = Err (errors_New "proto: message has no name").
Proof.
  exact (proj1 (ToJSON_failure pickyCodec
                  (Wrap (BadRequest [])
                     (arbitraryError (New codes.Internal "lost" [])
                        (PBOther "" "raw"))))
           [PBBadRequest {| detailspb.FieldViolations := [] |}]
           (PBOther "" "raw") []
           [PBBadRequest {| detailspb.FieldViolations := [] |}]
           (errors_New "proto: message has no name")
           eq_refl eq_refl eq_refl).
Defined.

Lemma replayDetails_failure (codec : Codec)
  (details1 details2 : list (Any codec))
  (detail : Any codec) (pbs : list ProtoMessage)
  (mappers : list DetailsMapper) (sterr err : error) :
  traverse (anypb_UnmarshalNew codec) details1 = Ok pbs ->
  anypb_UnmarshalNew codec detail = Err err ->
  replayDetails codec (details1 ++ detail :: details2) mappers sterr = err.
Proof.
  revert pbs sterr.
  induction details1 as [|d details1 IH]; intros pbs sterr H1 Hd; simpl.
  - rewrite Hd. reflexivity.
  - simpl in H1.
    destruct (anypb_UnmarshalNew codec d) as [pb|]; simpl in H1;
      [|discriminate].
    destruct (traverse _ details1) as [pbs'|]; simpl in H1; [|discriminate].
    apply (IH pbs'); [reflexivity|exact Hd].
Qed.

(** X15. [FromJSON] returns a failure as it is: the error of the reader; or
    the error of the codec for a document it does not parse; or, for a
    detail it does not decode, the error of that detail alone, with nothing
    of the chain built up to there, whatever the mappers. *)
Theorem FromJSON_failure (codec : Codec) (mappers : list DetailsMapper)
  (err : error) :
  FromJSON codec (Err err) mappers = err
  /\ (forall b, protojson_Unmarshal codec b = Err err ->
                FromJSON codec (Ok b) mappers = err)
  /\ (forall b s details1 detail details2 pbs,
        protojson_Unmarshal codec b = Ok s ->
        statuspb.Details s = (details1 ++ detail :: details2)%list ->
        traverse (anypb_UnmarshalNew codec) details1 = Ok pbs ->
        anypb_UnmarshalNew codec detail = Err err ->
        FromJSON codec (Ok b) mappers = err).
Proof.
  split; [reflexivity|]. split.
  - intros b H. unfold FromJSON. rewrite H. reflexivity.
  - intros b s details1 detail details2 pbs Hs Hd H1 Hdet.
    unfold FromJSON. rewrite Hs, Hd.
    apply (replayDetails_failure codec _ _ _ pbs); assumption.
Qed.

Lemma FromJSON_failure_witness :
  FromJSON pickyCodec (Ok None) [] = errors_New "proto: syntax error"
  /\ FromJSON pickyCodec
       (Ok (Some {| statuspb.Code := 5;
                    statuspb.Message := "NotFound: x";
                    statuspb.Details :=
                      [PBHelp {| detailspb.Links := [] |};
                       PBOther "" "raw";
                       PBBadRequest {| detailspb.FieldViolations := [] |}] |}))
       [fun _ => Some (Code codes.Internal)]
     = errors_New "proto: not found".
Proof.
  split.
  - apply (proj1 (proj2 (FromJSON_failure pickyCodec []
                           (errors_New "proto: syntax error")))).
    reflexivity.
  - exact (proj2 (proj2 (FromJSON_failure pickyCodec
                           [fun _ => Some (Code codes.Internal)]
                           (errors_New "proto: not found")))
             (Some {| statuspb.Code := 5;
                      statuspb.Message := "NotFound: x";
                      statuspb.Details :=
                        [PBHelp {| detailspb.Links := [] |};
                         PBOther "" "raw";
                         PBBadRequest
                           {| detailspb.FieldViolations := [] |}] |})
             {| statuspb.Code := 5;
                statuspb.Message := "NotFound: x";
                statuspb.Details :=
                  [PBHelp {| detailspb.Links := [] |};
                   PBOther "" "raw";
                   PBBadRequest {| detailspb.FieldViolations := [] |}] |}
             [PBHelp {| detailspb.Links := [] |}] (PBOther "" "raw")
             [PBBadRequest {| detailspb.FieldViolations := [] |}]
             [PBHelp {| detailspb.Links := [] |}]
             eq_refl eq_refl eq_refl eq_refl).
Defined.

(** ** Layers without a payload *)

(** X16. An annotation made with [fmt.Errorf] and [%w] over a chain that has
    a code layer changes nothing in the envelope: [ToJSON] skips the layer,
    and its text is not in the message. *)
Theorem ToJSON_skips_annotation (codec : Codec) (msg : string) (e st : error) :
  errors_As asStatusError e = Some st ->
  ToJSON codec (wrapError msg e) = ToJSON codec e.
Proof.
  intros H. rewrite !ToJSON_eq.
  assert (Hst : toStatus (wrapError msg e) = toStatus e).
  { unfold toStatus, errors_As in *. simpl. rewrite H. reflexivity. }
  unfold classify. rewrite Hst. reflexivity.
Qed.

Lemma ToJSON_skips_annotation_witness :
  ToJSON plainCodec
    (fmt_Errorf "query failed: " (New codes.NotFound "no such table" []))
  = ToJSON plainCodec (New codes.NotFound "no such table" []).
Proof.
  apply (ToJSON_skips_annotation plainCodec _ _
           (New codes.NotFound "no such table" [])).
  reflexivity.
Defined.

(** ** The interceptors *)

Lemma collectDetails_eq (codec : Codec) (errs : list error)
  (p : statuspb.Status (Any codec)) :
  collectDetails codec errs p
  = {| statuspb.Code := statuspb.Code p;
       statuspb.Message := statuspb.Message p;
       statuspb.Details :=
         statuspb.Details p
         ++ flat_map (fun msg => match anypb_New codec msg with
                                 | Ok any => [any]
                                 | Err _ => []
                                 end)
              (flat_map (fun l => match asProtoMessage l with
                                  | Some msg => [msg]
                                  | None => []
                                  end) errs) |}.
Proof.
  revert p. induction errs as [|err rest IH]; intros p; simpl.
  - rewrite app_nil_r. destruct p; reflexivity.
  - destruct (asProtoMessage err) as [msg|]; simpl; [|apply IH].
    destruct (anypb_New codec msg) as [any|]; simpl; [|apply IH].
    rewrite IH. simpl. rewrite <- app_assoc. reflexivity.
Qed.

Lemma traverse_all_encoded {A B : Type} (f : A -> result B) (l : list A)
  (bs : list B) :
  traverse f l = Ok bs ->
  flat_map (fun a => match f a with Ok b => [b] | Err _ => [] end) l = bs.
Proof.
  revert bs. induction l as [|a l IH]; intros bs; simpl.
  - intros H. injection H as <-. reflexivity.
  - destruct (f a) as [b|]; simpl; [|discriminate].
    destruct (traverse f l) as [bs'|]; simpl; [|discriminate].
    intros H. injection H as <-. rewrite (IH bs' eq_refl). reflexivity.
Qed.

(** X17. [translateError] on an error: the status it returns has the code
    and the message [ToJSON] gives the envelope and, as details, the
    payloads of the chain the codec encodes, in order, those it does not
    encode being left out without a failure; when all are encoded these are
    the details of the envelope of [ToJSON].  And it returns nil, so that
    the call succeeds, exactly when the chain resolves to [codes.OK]. *)
Theorem translateError_status (codec : Codec) (err : error) :
  let p details :=
    {| statuspb.Code := int32 (classify err);
       statuspb.Message := Error (toStatus err);
       statuspb.Details := details |} in
  let encoded :=
    flat_map (fun msg => match anypb_New codec msg with
                         | Ok any => [any]
                         | Err _ => []
                         end) (detailsOf err) in
  translateError codec (Some err) = status_Err codec (p encoded)
  /\ (translateError codec (Some err) = None
      <-> uint32 (classify err) = codes.OK)
  /\ (forall anys,
        traverse (anypb_New codec) (detailsOf err) = Ok anys ->
        encoded = anys
        /\ ToJSON codec err = protojson_Marshal codec (p anys)).
Proof.
  intros p encoded.
  assert (H : translateError codec (Some err)
              = status_Err codec (p encoded)).
  { unfold translateError. rewrite collectDetails_eq.
    fold (detailsOf err). fold encoded.
    destruct (toStatus_code err) as [cause Hst].
    unfold status_Convert, status.Proto, p. rewrite Hst. reflexivity. }
  split; [exact H|]. split.
  - rewrite H. unfold status_Err, p. cbn [statuspb.Code].
    rewrite uint32_int32.
    destruct (uint32 (classify err) =? codes.OK) eqn:Hc.
    + apply Z.eqb_eq in Hc. tauto.
    + apply Z.eqb_neq in Hc. split; [discriminate|contradiction].
  - intros anys Ha. split.
    + apply traverse_all_encoded. exact Ha.
    + rewrite ToJSON_eq, Ha. reflexivity.
Qed.

Lemma translateError_status_witness :
  translateError pickyCodec
    (Some (Wrap (BadRequest [])
             (arbitraryError (New codes.Internal "lost" [])
                (PBOther "" "raw"))))
  = Some {| statuspb.Code := 13;
            statuspb.Message := "Internal: lost";
            statuspb.Details :=
              [PBBadRequest {| detailspb.FieldViolations := [] |}] |}
  /\ translateError plainCodec (Some (New codes.OK "fine" [])) = None.
Proof.
  split.
  - exact (proj1 (translateError_status pickyCodec
                    (Wrap (BadRequest [])
                       (arbitraryError (New codes.Internal "lost" [])
                          (PBOther "" "raw"))))).
  - apply (proj1 (proj2 (translateError_status plainCodec
                           (New codes.OK "fine" [])))).
    reflexivity.
Defined.

(** X18. The interceptors pass the error of the handler to
    [translateError] also when it is nil.  For a nil error [translateError]
    does not return nil: it returns a status with the code [codes.Unknown]
    and the message of a code layer without a cause.  So a call whose
    handler succeeds ends, through either interceptor, with that status as
    its error. *)
Theorem interceptor_of_success (codec : Codec) (Req Resp Stream : Type)
  (req : Req) (unary : Req -> Resp * option error) (resp : Resp)
  (ss : Stream) (stream : Stream -> option error) :
  unary req = (resp, None) ->
  stream ss = None ->
  let unknown :=
    {| statuspb.Code := 2;
       statuspb.Message := "Unknown: %!s(<nil>)";
       statuspb.Details := [] |} in
  UnaryServerInterceptor codec req unary = (resp, Some unknown)
  /\ StreamServerInterceptor codec ss stream = Some unknown.
Proof.
  intros Hu Hs unknown.
  unfold UnaryServerInterceptor, StreamServerInterceptor.
  rewrite Hu, Hs. split; reflexivity.
Qed.

Lemma interceptor_of_success_witness :
  UnaryServerInterceptor plainCodec tt (fun _ => ("pong", None))
  = ("pong",
     Some {| statuspb.Code := 2;
             statuspb.Message := "Unknown: %!s(<nil>)";
             statuspb.Details := [] |}).
Proof.
  exact (proj1 (interceptor_of_success plainCodec unit string unit tt
                  (fun _ => ("pong", None)) "pong" tt (fun _ => None)
                  eq_refl eq_refl)).
Defined.

(** ** ServeHTTP *)

Lemma errors_As_StatusCode (e : error) : errors_As StatusCode e = None.
Proof.
  unfold errors_As. apply firstSome_None.
  intros l _. destruct l; reflexivity.
Qed.

(** X19. [ServeHTTP] does nothing when the handler function returns nil.
    When it returns an error made of the layers of the package, [ServeHTTP]
    sets the content type first, then calls [WriteHeader] once, always with
    500 whatever the code of the chain, then [Encode] once; when [ToJSON]
    succeeds the body is what it returned.  Every other call is a report to
    the [ErrorHandler] that is set, and there is none when none is set. *)
Theorem ServeHTTP_calls (codec : Codec) (ErrorHandler Request : Type)
  (pkg : errorHandler ErrorHandler) (fn : Request -> option error)
  (write : body codec -> option error) (r : Request) :
  (fn r = None -> ServeHTTP codec ErrorHandler pkg fn write r = [])
  /\ (forall verr,
        fn r = Some verr ->
        exists reports1 v reports2,
          ServeHTTP codec ErrorHandler pkg fn write r
          = (HeaderSet codec ErrorHandler "Content-Type" "application/json"
             :: reports1
             ++ WriteHeader codec ErrorHandler 500
             :: Encode codec ErrorHandler v
             :: reports2)%list
          /\ (forall c, In c (reports1 ++ reports2)%list ->
                        exists h err,
                          c = Handle codec ErrorHandler h err
                          /\ handler ErrorHandler pkg = Some h)
          /\ (forall b, ToJSON codec verr = Ok b ->
                        v = envelopeBody codec b /\ reports1 = [])).
Proof.
  split.
  - intros H. unfold ServeHTTP. rewrite H. reflexivity.
  - intros verr H. unfold ServeHTTP. rewrite H, errors_As_StatusCode.
    assert (Hrep : forall e c,
               In c (errorHandler_Handle codec ErrorHandler pkg e) ->
               exists h err,
                 c = Handle codec ErrorHandler h err
                 /\ handler ErrorHandler pkg = Some h).
    { intros e c. unfold errorHandler_Handle.
      destruct (handler ErrorHandler pkg) as [h|]; [|intros []].
      intros [<-|[]]. eauto. }
    destruct (ToJSON codec verr) as [b|err].
    + exists [], (envelopeBody codec b). eexists. split; [reflexivity|].
      split.
      * intros c Hc. simpl in Hc.
        destruct (write (envelopeBody codec b)); [|destruct Hc].
        exact (Hrep _ c Hc).
      * intros b' Hb. injection Hb as <-. split; reflexivity.
    + eexists. eexists. eexists. split; [reflexivity|]. split.
      * intros c Hc. apply in_app_or in Hc. destruct Hc as [Hc|Hc].
        -- exact (Hrep _ c Hc).
        -- destruct (write _); [|destruct Hc]. exact (Hrep _ c Hc).
      * intros b Hb. discriminate Hb.
Qed.

Lemma ServeHTTP_calls_witness :
  let pkg := {| handler := Some tt |} in
  let fn := fun _ : unit =>
              Some (New codes.InvalidArgument "test error" []) in
  let write := fun _ : body plainCodec => @None error in
  exists reports1 v reports2,
    ServeHTTP plainCodec unit pkg fn write tt
    = (HeaderSet plainCodec unit "Content-Type" "application/json"
       :: reports1
       ++ WriteHeader plainCodec unit 500
       :: Encode plainCodec unit v
       :: reports2)%list
    /\ (forall c, In c (reports1 ++ reports2)%list ->
                  exists h err,
                    c = Handle plainCodec unit h err
                    /\ handler unit pkg = Some h)
    /\ (forall b,
          ToJSON plainCodec (New codes.InvalidArgument "test error" [])
          = Ok b ->
          v = envelopeBody plainCodec b /\ reports1 = []).
Proof.
  intros pkg fn write.
  exact (proj2 (ServeHTTP_calls plainCodec unit unit pkg fn write tt)
           (New codes.InvalidArgument "test error" []) eq_refl).
Defined.

Ltac in_calls H :=
  simpl in H;
  repeat match type of H with
         | _ \/ _ => destruct H as [H|H]
         end;
  try discriminate H; try contradiction;
  injection H as <- <-; (split; [reflexivity|]).

(** X20. What [ServeHTTP] reports: at most two errors, each to the
    [ErrorHandler] that [SetErrorHandler] set last and to no other, none
    after it was set to nil; and each report wraps, for [errors.Unwrap] to
    find, the error [ToJSON] failed with or the error of a write.  When
    [ToJSON] fails the body is the status [codes.Internal] with the message
    of the failed encoding. *)
Theorem ServeHTTP_reports (codec : Codec) (ErrorHandler Request : Type)
  (set : option ErrorHandler) (pkg : errorHandler ErrorHandler)
  (fn : Request -> option error) (write : body codec -> option error)
  (r : Request) :
  let calls :=
    ServeHTTP codec ErrorHandler (SetErrorHandler ErrorHandler set pkg)
      fn write r in
  (forall h err,
     In (Handle codec ErrorHandler h err) calls ->
     set = Some h
     /\ exists cause verr,
          fn r = Some verr
          /\ errors_Unwrap err = Some cause
          /\ (ToJSON codec verr = Err cause
              \/ exists v, write v = Some cause))
  /\ (List.length calls <= 5)%nat
  /\ (forall verr cause,
        fn r = Some verr -> ToJSON codec verr = Err cause ->
        In (Encode codec ErrorHandler
              (statusBody codec codes.Internal
                 "Internal Server Error: failed to encode error response"))
           calls
        /\ (forall h, set = Some h ->
                      In (Handle codec ErrorHandler h
                            (fmt_Errorf "failed to encode error to JSON: "
                               cause)) calls)).
Proof.
  intros calls. subst calls. unfold ServeHTTP, errorHandler_Handle.
  cbn [SetErrorHandler handler].
  destruct (fn r) as [verr|].
  - rewrite errors_As_StatusCode.
    destruct (ToJSON codec verr) as [b|e] eqn:HJ.
    + split; [|split].
      * intros h err Hin.
        destruct (write (envelopeBody codec b)) as [we|] eqn:Hw;
          destruct set as [h0|]; in_calls Hin.
        exists we, verr. split; [reflexivity|]. split; [reflexivity|].
        right. eauto.
      * destruct (write (envelopeBody codec b)); destruct set; simpl; lia.
      * intros verr' cause Hv Hc. injection Hv as <-.
        rewrite HJ in Hc. discriminate Hc.
    + set (v := statusBody codec codes.Internal _).
      split; [|split].
      * intros h err Hin.
        destruct (write v) as [we|] eqn:Hw;
          destruct set as [h0|]; in_calls Hin.
        -- exists e, verr. split; [reflexivity|]. split; [reflexivity|].
           left. exact HJ.
        -- exists we, verr. split; [reflexivity|]. split; [reflexivity|].
           right. eauto.
        -- exists e, verr. split; [reflexivity|]. split; [reflexivity|].
           left. exact HJ.
      * destruct (write v); destruct set; simpl; lia.
      * intros verr' cause Hv Hc. injection Hv as <-.
        rewrite HJ in Hc. injection Hc as <-. split.
        -- apply in_cons, in_or_app. right. right. left. reflexivity.
        -- intros h ->. right. left. reflexivity.
  - simpl. split; [intros h err []|]. split; [lia|].
    intros verr cause H. discriminate H.
Qed.

Lemma ServeHTTP_reports_witness :
  let chain :=
    arbitraryError (New codes.Internal "lost" []) (PBOther "" "raw") in
  let cause := errors_New "proto: message has no name" in
  let calls :=
    ServeHTTP pickyCodec string
      (SetErrorHandler string (Some "logger") {| handler := None |})
      (fun _ : unit => Some chain) (fun _ => None) tt in
  In (Encode pickyCodec string
        (statusBody pickyCodec codes.Internal
           "Internal Server Error: failed to encode error response")) calls
  /\ (forall h, Some "logger" = Some h ->
                In (Handle pickyCodec string h
                      (fmt_Errorf "failed to encode error to JSON: " cause))
                   calls).
Proof.
  intros chain cause calls.
  exact (proj2 (proj2 (ServeHTTP_reports pickyCodec string unit
                         (Some "logger") {| handler := None |}
                         (fun _ : unit => Some chain) (fun _ => None) tt))
           chain cause eq_refl eq_refl).
Defined.

(** ** Targets that share no pointer with the chain *)

(** X21. When no pointer is shared between the chain and the target, as
    with a target decoded or built afresh, [errors.Is] holds only against a
    code layer whose code some code layer of the chain has: against any
    other target, a detail layer or an [arbitraryError] with an equal
    payload included, it is false. *)
Theorem errors_Is_fresh_target (e target : error) :
  errors_Is (fun _ _ => false) (fun _ _ => false) e target = true
  <-> exists cause c err,
        target = errCodeError cause c /\ In (errCodeError err c) (layers e).
Proof.
  split.
  - unfold errors_Is. intros H. apply existsb_exists in H.
    destruct H as (l & Hin & Hm). unfold matches in Hm. simpl in Hm.
    destruct l; simpl in Hm; try discriminate.
    + destruct target; try discriminate.
      apply Z.eqb_eq in Hm. subst. eauto.
    + destruct (asProtoMessage target); discriminate.
  - intros (cause & c & err & -> & Hin).
    apply errors_Is_code_layer with (err := err). exact Hin.
Qed.

(** ** The text of a chain *)

(** X22. The detail wrappers leave the text of an error as it is: [Error]
    of a chain with detail layers is [Error] of the chain without them, and
    [Error] of [New (C, m, details...)] is the name of [C], a colon and
    [m]. *)
Theorem Error_WithDetails (e : error) (C : codes.Code) (m : string)
  (ds : list Details) (msgs : list ProtoMessage) :
  Forall2 kindWrapper ds msgs ->
  Error (WithDetails e ds) = Error e
  /\ Error (New C m ds) = codes.String C ++ ": " ++ m.
Proof.
  intros H. split.
  - rewrite (WithDetails_kindWrappers ds msgs e H). apply Error_replay.
  - unfold New. rewrite (WithDetails_kindWrappers ds msgs _ H).
    rewrite Error_replay. reflexivity.
Qed.

Lemma Error_WithDetails_witness :
  Error (New codes.PermissionDenied "access denied"
           [Help []; RequestInfo (details.Other
                                    {| detailspb.RequestId := "123456789";
                                       detailspb.ServingData := "" |})])
  = "PermissionDenied: access denied".
Proof.
  refine (proj2 (Error_WithDetails (errors_New "") codes.PermissionDenied
                   "access denied" [Help []; RequestInfo _]
                   [PBHelp _; PBRequestInfo _] _)).
  constructor; [|constructor; [|constructor]].
  - apply (proj1 (proj2 kindWrappers_of_package) []).
  - apply kindWrappers_of_package.
Defined.
